(** * my-pocket: article metadata extraction ([extractUrlData])

    A shallow embedding of the server action [extractUrlData] and the
    properties its specification states about it.  The repository holds two
    revisions of the action: the later one ([src/unnamed/part_000], with
    [truncateToVarCharLimit] and [normalizeText]) is the one embedded in
    [Action] and the one the theorems are about; the earlier one
    ([src/app/actions/extract-url-data.ts], the same code without the two
    helpers) differs in the record it builds only, see [Earlier].

    Layout
    - [JsString]   JavaScript strings as sequences of UTF-16 code units, with
                   the [String.prototype] methods the action calls;
    - [Dom]        the part of the DOM the action reads and mutates;
    - [Effects]    thrown values, the observable events, the environment
                   (network, browser, libraries, clock) and the monad the
                   asynchronous code runs in;
    - [Action]    the functions of the source file, in source order;
    - [Earlier]    the record of the earlier revision;
    - [Observations], [Samples]  vocabulary for the statements and sample
                   pages and environments;
    - the theorems. *)

From Stdlib Require Import NArith Arith Lia Bool String Ascii.
From Stdlib Require Decimal DecimalString.
From Stdlib Require Import List.
Import ListNotations.

Set Implicit Arguments.
Set Warnings "-register-all".

(* ===================================================================== *)
(** ** JavaScript strings *)
(* ===================================================================== *)

Module JsString.

(** A JavaScript string is a sequence of UTF-16 code units; [length],
    [slice], [includes] and [split] all count and cut in code units. *)
Definition code_unit := N.
Definition jsstring := list code_unit.

(** ASCII literals of the source. *)
Fixpoint str (s : string) : jsstring :=
  match s with
  | EmptyString => []
  | String a r => N_of_ascii a :: str r
  end.

Definition SPACE : code_unit := 32%N.

(** The class [\s] of a regular expression and the characters [trim]
    strips are the same set: WhiteSpace and LineTerminator of ECMA-262. *)
Definition isWhiteSpace (c : code_unit) : bool :=
  ((9 <=? c) && (c <=? 13)          (* TAB LF VT FF CR *)
   || (c =? 32)                     (* SPACE *)
   || (c =? 160)                    (* NO-BREAK SPACE *)
   || (c =? 5760)                   (* U+1680 *)
   || (8192 <=? c) && (c <=? 8202)  (* U+2000 .. U+200A *)
   || (c =? 8232) || (c =? 8233)    (* U+2028 U+2029 *)
   || (c =? 8239) || (c =? 8287)    (* U+202F U+205F *)
   || (c =? 12288)                  (* U+3000 *)
   || (c =? 65279))%N.              (* U+FEFF *)

Fixpoint eqb (a b : jsstring) : bool :=
  match a, b with
  | [], [] => true
  | x :: a', y :: b' => (x =? y)%N && eqb a' b'
  | _, _ => false
  end.

(** [!text] on a string: only the empty string is falsy. *)
Definition truthy (s : jsstring) : bool :=
  match s with [] => false | _ :: _ => true end.

(** [a || b] on strings. *)
Definition or_else (a b : jsstring) : jsstring :=
  if truthy a then a else b.

(** [a || b] where [a] may be [undefined] or [null]. *)
Definition opt_or_else (a : option jsstring) (b : jsstring) : jsstring :=
  match a with
  | Some s => or_else s b
  | None => b
  end.

(** [text.replace(/\s+/g, ' ')]: every maximal run of whitespace becomes
    one space.  [in_run] says that the previous code unit was whitespace,
    so the space of the current run has been written already. *)
Fixpoint replace_runs (in_run : bool) (s : jsstring) : jsstring :=
  match s with
  | [] => []
  | c :: r =>
      if isWhiteSpace c
      then (if in_run then replace_runs true r else SPACE :: replace_runs true r)
      else c :: replace_runs false r
  end.

Definition replace_ws_by_space (s : jsstring) : jsstring := replace_runs false s.

Fixpoint trimStart (s : jsstring) : jsstring :=
  match s with
  | [] => []
  | c :: r => if isWhiteSpace c then trimStart r else s
  end.

Definition trimEnd (s : jsstring) : jsstring := rev (trimStart (rev s)).

Definition trim (s : jsstring) : jsstring := trimEnd (trimStart s).

(** [s.slice(b, e)] for non-negative [b <= e]; both ends are clamped to
    the length. *)
Definition slice (b e : nat) (s : jsstring) : jsstring :=
  firstn (e - b) (skipn b s).

Fixpoint startsWith (s p : jsstring) : bool :=
  match p, s with
  | [], _ => true
  | _ :: _, [] => false
  | a :: p', b :: s' => (a =? b)%N && startsWith s' p'
  end.

(** [s.includes(sub)]: [sub] occurs somewhere in [s]. *)
Fixpoint includes (s sub : jsstring) : bool :=
  startsWith s sub ||
  match s with
  | [] => false
  | _ :: r => includes r sub
  end.

(** [s.split(sep)] for a non-empty separator.  [skip] counts the code units
    of a separator occurrence still to be passed over, [cur] holds the
    piece being read, reversed. *)
Fixpoint split_go (sep s : jsstring) (skip : nat) (cur : jsstring) : list jsstring :=
  match s with
  | [] => [rev cur]
  | c :: r =>
      match skip with
      | S k => split_go sep r k cur
      | O =>
          if startsWith s sep
          then rev cur :: split_go sep r (length sep - 1) []
          else split_go sep r 0 (c :: cur)
      end
  end.

Definition split (sep s : jsstring) : list jsstring := split_go sep s 0 [].

(** [String(n)] for a non-negative integer. *)
Definition of_number (n : N) : jsstring :=
  str (DecimalString.NilEmpty.string_of_uint (N.to_uint n)).

(** *** Words: the reading of normalisation the specification gives *)

(** The maximal runs of code units that are not separators, in order. *)
Fixpoint tokens (sep : code_unit -> bool) (s : jsstring) : list jsstring :=
  match s with
  | [] => []
  | c :: r =>
      if sep c then tokens sep r
      else match r with
           | [] => [[c]]
           | d :: _ =>
               if sep d then [c] :: tokens sep r
               else match tokens sep r with
                    | w :: ws => (c :: w) :: ws
                    | [] => [[c]]
                    end
           end
  end.

Definition words : jsstring -> list jsstring := tokens isWhiteSpace.

(** The words joined by single spaces. *)
Fixpoint unwords (ws : list jsstring) : jsstring :=
  match ws with
  | [] => []
  | [w] => w
  | w :: rest => w ++ SPACE :: unwords rest
  end.

(** Shape predicates of a normalised string. *)
Definition starts_ws (s : jsstring) : bool :=
  match s with [] => false | c :: _ => isWhiteSpace c end.

(** Every whitespace code unit is a space, and no two are adjacent. *)
Fixpoint single_spaced (s : jsstring) : bool :=
  match s with
  | [] => true
  | c :: r =>
      (if isWhiteSpace c then (c =? SPACE)%N && negb (starts_ws r) else true)
      && single_spaced r
  end.

Definition ws_normal (s : jsstring) : bool :=
  single_spaced s && negb (starts_ws s) && negb (starts_ws (rev s)).

(** A word is never empty and holds no whitespace. *)
Definition is_word (w : jsstring) : Prop :=
  w <> [] /\ forallb (fun c => negb (isWhiteSpace c)) w = true.

(** Not a whitespace code unit. *)
Definition non_ws (c : code_unit) : bool := negb (isWhiteSpace c).

(** No whitespace at all. *)
Definition ws_free (s : jsstring) : Prop :=
  forallb (fun c => negb (isWhiteSpace c)) s = true.

End JsString.
Export JsString.


(* ===================================================================== *)
(** ** The DOM, as far as the action uses it *)
(* ===================================================================== *)

Module Dom.

(** Element nodes carry an identity ([id]), as JavaScript objects do: it is
    what [el.remove()] goes by.  Tag and attribute names are the ones the
    HTML parser produced (lower case). *)
Inductive node : Type :=
| Text (data : jsstring)
| Comment (data : jsstring)
| Element (id : nat) (localName : jsstring)
          (attributes : list (jsstring * jsstring)) (childNodes : list node).

(** The children of the document node. *)
Definition document := list node.

(** The selectors of the source: a type selector ([article]), a class
    selector ([.post-content]) and [meta[attr="value"]]; a selector list is
    written with commas in CSS. *)
Inductive compound : Type :=
| TypeSel (name : jsstring)
| ClassSel (cls : jsstring)
| MetaAttrSel (attr value : jsstring).

Definition selector := list compound.

(** A test that looks at the element itself, never below it. *)
Definition head_pred := nat -> jsstring -> list (jsstring * jsstring) -> bool.

Definition on_element (p : head_pred) (n : node) : bool :=
  match n with
  | Element i name attrs _ => p i name attrs
  | _ => false
  end.

Fixpoint lookup_attr (name : jsstring) (attrs : list (jsstring * jsstring))
  : option jsstring :=
  match attrs with
  | [] => None
  | (k, v) :: rest => if eqb k name then Some v else lookup_attr name rest
  end.

(** [element.getAttribute(name)]; [null] is [None]. *)
Definition getAttribute (name : jsstring) (n : node) : option jsstring :=
  match n with
  | Element _ _ attrs _ => lookup_attr name attrs
  | _ => None
  end.

(** The separators of a [class] attribute: ASCII whitespace. *)
Definition isAsciiWhitespace (c : code_unit) : bool :=
  ((c =? 9) || (c =? 10) || (c =? 12) || (c =? 13) || (c =? 32))%N.

Definition classList (attrs : list (jsstring * jsstring)) : list jsstring :=
  match lookup_attr (str "class") attrs with
  | Some v => tokens isAsciiWhitespace v
  | None => []
  end.

Definition matches_compound (c : compound) : head_pred :=
  fun _ name attrs =>
    match c with
    | TypeSel t => eqb name t
    | ClassSel k => existsb (eqb k) (classList attrs)
    | MetaAttrSel a v =>
        eqb name (str "meta") &&
        match lookup_attr a attrs with
        | Some x => eqb x v
        | None => false
        end
    end.

Definition matches (sel : selector) : head_pred :=
  fun i name attrs => existsb (fun c => matches_compound c i name attrs) sel.

(** The elements of a subtree in document order, the root first. *)
Fixpoint subtree_elements (n : node) : list node :=
  match n with
  | Element _ _ _ cs => n :: flat_map subtree_elements cs
  | _ => []
  end.

Definition descendants (n : node) : list node :=
  match n with
  | Element _ _ _ cs => flat_map subtree_elements cs
  | _ => []
  end.

Definition document_elements (d : document) : list node :=
  flat_map subtree_elements d.

(** [document.querySelector(sel)]. *)
Definition querySelector (d : document) (sel : selector) : option node :=
  head (filter (on_element (matches sel)) (document_elements d)).

(** [element.querySelectorAll(sel)]: descendants only. *)
Definition querySelectorAll (element : node) (sel : selector) : list node :=
  filter (on_element (matches sel)) (descendants element).

(** [element.textContent]: the text of all text-node descendants. *)
Fixpoint textContent (n : node) : jsstring :=
  match n with
  | Text d => d
  | Comment _ => []
  | Element _ _ _ cs => flat_map textContent cs
  end.

(** The tree without the elements below its root that [bad] picks (and
    everything under them). *)
Fixpoint prune (bad : head_pred) (n : node) : node :=
  match n with
  | Element i name attrs cs =>
      Element i name attrs
        (filter (fun c => negb (on_element bad c)) (map (prune bad) cs))
  | _ => n
  end.

Definition node_id (n : node) : nat :=
  match n with
  | Element i _ _ _ => i
  | _ => 0
  end.

(** [el.remove()] for an element [el] below [root]: [el] leaves its
    parent's child list. *)
Definition remove (el : node) (root : node) : node :=
  prune (fun j _ _ => Nat.eqb j (node_id el)) root.

(** [list.forEach((el) => el.remove())]. *)
Definition forEach_remove (l : list node) (root : node) : node :=
  fold_left (fun r el => remove el r) l root.

(** Every element object of the subtree is a different object. *)
Definition distinct_ids (n : node) : Prop :=
  NoDup (map node_id (subtree_elements n)).

End Dom.
Export Dom.

(* ===================================================================== *)
(** ** Exceptions, events and the environment of a call *)
(* ===================================================================== *)

Module Effects.

(** A thrown value: an [Error] object with its message, or anything else
    ([error instanceof Error] is false). *)
Inductive thrown : Type :=
| ErrorObj (message : jsstring)
| OtherValue.

(** How a call or an awaited promise ends. *)
Inductive outcome (A : Type) : Type :=
| Return (a : A)
| Throw (e : thrown).
Arguments Return {A} a.
Arguments Throw {A} e.

(** What the action does to the outside, in the order it does it. *)
Inductive event : Type :=
| SetTimeout (ms : N)                     (* the abort timer of the fetch *)
| Fetch (url userAgent : jsstring)        (* fetch(url, ...) *)
| ClearTimeout
| ResponseText                            (* response.text() *)
| ConsoleLog (e : thrown)
| ConsoleError (e : thrown)
| Launch                                  (* puppeteer.launch(...) *)
| NewPage                                 (* browser.newPage() *)
| SetUserAgent (userAgent : jsstring)     (* page.setUserAgent(...) *)
| Goto (url : jsstring) (timeout : N)     (* page.goto(url, ...) *)
| Sleep (ms : N)                          (* the 2 s settle delay *)
| PageContent                             (* page.content() *)
| BrowserClose.                           (* browser.close() *)

Record Response : Type := {
  status : N;
  statusText : jsstring;
  text : outcome jsstring          (* how response.text() ends *)
}.

(** [response.ok]: the status is in the range 200-299. *)
Definition ok (r : Response) : bool :=
  ((200 <=? status r) && (status r <=? 299))%N.

(** The environment of one call: how each request to the network, to the
    browser, to the libraries and to the clock ends. *)
Record World : Type := {
  fetch : jsstring -> outcome Response;
  launch : outcome unit;
  newPage : outcome unit;
  setUserAgent : outcome unit;
  goto : jsstring -> outcome unit;
  page_content : outcome jsstring;            (* page.content() *)
  close : outcome unit;
  JSDOM : jsstring -> outcome document;          (* new JSDOM(html) *)
  URL_hostname : jsstring -> outcome jsstring;   (* new URL(url).hostname *)
  Date_toISOString : jsstring                    (* new Date().toISOString() *)
}.

(** A computation over the trace of events so far and the mutable local
    variables [L] of the running function. *)
Definition M (L A : Type) : Type :=
  list event * L -> (list event * L) * outcome A.

Definition ret {L A} (a : A) : M L A := fun s => (s, Return a).

Definition throw {L A} (e : thrown) : M L A := fun s => (s, Throw e).

Definition bind {L A B} (m : M L A) (k : A -> M L B) : M L B :=
  fun s =>
    match m s with
    | (s', Return a) => k a s'
    | (s', Throw e) => (s', Throw e)
    end.

Definition emit {L} (ev : event) : M L unit :=
  fun s => ((fst s ++ [ev], snd s), Return tt).

(** A call to the outside: the event, then the way the call ends. *)
Definition perform {L A} (ev : event) (o : outcome A) : M L A :=
  fun s => ((fst s ++ [ev], snd s), o).

Definition lift {L A} (o : outcome A) : M L A := fun s => (s, o).

Definition read {L} : M L L := fun s => (s, Return (snd s)).

Definition write {L} (l : L) : M L unit := fun s => ((fst s, l), Return tt).

(** [try { m } catch (error) { h error }]. *)
Definition try_catch {L A} (m : M L A) (h : thrown -> M L A) : M L A :=
  fun s =>
    match m s with
    | (s', Return a) => (s', Return a)
    | (s', Throw e) => h e s'
    end.

(** [try { m } finally { f }]: [f] runs on both exits; when [f] throws,
    its exception replaces the result of [m]. *)
Definition try_finally {L A} (m : M L A) (f : M L unit) : M L A :=
  fun s =>
    match m s with
    | (s', r) =>
        match f s' with
        | (s'', Return _) => (s'', r)
        | (s'', Throw e) => (s'', Throw e)
        end
    end.

(** A call of a function with its own local variables, starting as [l0]. *)
Definition call {L L' A} (l0 : L') (m : M L' A) : M L A :=
  fun s =>
    match m (fst s, l0) with
    | ((tr, _), r) => ((tr, snd s), r)
    end.

Declare Scope action_scope.
Delimit Scope action_scope with action.
Notation "x <- m ;; k" := (bind m (fun x => k))
  (at level 61, m at next level, right associativity) : action_scope.
Notation "m ;;; k" := (bind m (fun _ => k))
  (at level 61, right associativity) : action_scope.

End Effects.
Export Effects.

(* ===================================================================== *)
(** ** The source file, function by function *)
(* ===================================================================== *)

Module Action.

Open Scope action_scope.

Record ArticleData : Type := {
  url : jsstring;
  siteName : jsstring;
  title : jsstring;
  description : jsstring;
  publishedAt : jsstring;
  thumbnail : jsstring;
  content : jsstring;
  isLiked : option bool;       (* optional, never set by the action *)
  isArchived : option bool     (* optional, never set by the action *)
}.

(** Form data with string values; [get] gives the first value of a name,
    [null] ([None]) when there is none. *)
Definition FormData := list (jsstring * jsstring).

Definition FormData_get (name : jsstring) (formData : FormData) : option jsstring :=
  lookup_attr name formData.

Definition QUOTE : code_unit := 34%N.

Definition USER_AGENT : jsstring :=
  str "Mozilla/5.0 (Windows NT 10.0; Win64; x64) AppleWebKit/537.36 (KHTML, like Gecko) Chrome/120.0.0.0 Safari/537.36".

(** "URLが指定されていません" *)
Definition MSG_NO_URL : jsstring :=
  [85; 82; 76; 12364; 25351; 23450; 12373; 12428; 12390; 12356; 12414; 12379; 12435]%N.

(** "URL解析に失敗しました: " *)
Definition MSG_FAILED_PREFIX : jsstring :=
  [85; 82; 76; 35299; 26512; 12395; 22833; 25943; 12375; 12414; 12375; 12383; 58; 32]%N.

(** "不明なエラー" *)
Definition MSG_UNKNOWN : jsstring :=
  [19981; 26126; 12394; 12456; 12521; 12540]%N.

(** "タイトルなし" *)
Definition NO_TITLE : jsstring :=
  [12479; 12452; 12488; 12523; 12394; 12375]%N.

(** [part_000], lines 19-29. *)
Definition truncateToVarCharLimit (text : jsstring) : jsstring :=
  if negb (truthy text) then []
  else
    let normalized := trim (replace_ws_by_space text) in
    slice 0 255 normalized.

(** [part_000], lines 32-39. *)
Definition normalizeText (text : jsstring) : jsstring :=
  if negb (truthy text) then []
  else trim (replace_ws_by_space text).

(** [part_000], lines 205-229. *)
Definition jsRequiredDomains : list jsstring :=
  [str "qiita.com"; str "zenn.dev"; str "note.com"; str "medium.com"].

Definition jsIndicators : list jsstring :=
  [str "id=" ++ QUOTE :: str "__next" ++ [QUOTE];   (* Next.js *)
   str "id=" ++ QUOTE :: str "root" ++ [QUOTE];     (* React *)
   str "id=" ++ QUOTE :: str "app" ++ [QUOTE];      (* Vue *)
   str "data-reactroot";                            (* React *)
   str "__NUXT__"].                                 (* Nuxt.js *)

Definition checkIfJavaScriptRequired (w : World) (html url : jsstring)
  : outcome bool :=
  match URL_hostname w url with
  | Throw e => Throw e
  | Return hostname =>
      if existsb (fun domain => includes hostname domain) jsRequiredDomains
      then Return true
      else Return (existsb (fun indicator => includes html indicator) jsIndicators)
  end.

(** [part_000], lines 232-271.  The only local variable is [browser]. *)
Inductive Browser : Type := BrowserHandle.

Definition fetchWithPuppeteer (w : World) (url : jsstring)
  : M (option Browser) jsstring :=
  try_finally
    (perform Launch (launch w) ;;;
     write (Some BrowserHandle) ;;;
     perform NewPage (newPage w) ;;;
     perform (SetUserAgent USER_AGENT) (setUserAgent w) ;;;
     perform (Goto url 30000) (goto w url) ;;;
     emit (Sleep 2000) ;;;
     html <- perform PageContent (page_content w) ;;
     ret html)
    (browser <- read ;;
     match browser with
     | Some _ => perform BrowserClose (close w)
     | None => ret tt
     end).

(** [part_000], lines 95-112. *)
Definition meta_selectors (property : jsstring) : list selector :=
  [[MetaAttrSel (str "property") property];
   [MetaAttrSel (str "name") property];
   [MetaAttrSel (str "property") (str "og:" ++ property)];
   [MetaAttrSel (str "name") (str "og:" ++ property)];
   [MetaAttrSel (str "property") (str "twitter:" ++ property)];
   [MetaAttrSel (str "name") (str "twitter:" ++ property)]].

Fixpoint getMetaContent_loop (d : document) (selectors : list selector) : jsstring :=
  match selectors with
  | [] => []
  | sel :: rest =>
      match querySelector d sel with
      | Some element => opt_or_else (getAttribute (str "content") element) []
      | None => getMetaContent_loop d rest
      end
  end.

Definition getMetaContent (d : document) (property : jsstring) : jsstring :=
  getMetaContent_loop d (meta_selectors property).

(** [part_000], lines 115-152. *)
Definition contentSelectors : list selector :=
  [[TypeSel (str "article")];
   [ClassSel (str "post-content")];
   [ClassSel (str "entry-content")];
   [ClassSel (str "content")];
   [ClassSel (str "post")];
   [TypeSel (str "main")];
   [ClassSel (str "article-body")];
   [ClassSel (str "markdown-section")];
   [ClassSel (str "it-MdContent")]].

(** "script, style, nav, header, footer, aside" *)
Definition noiseSelector : selector :=
  [TypeSel (str "script"); TypeSel (str "style"); TypeSel (str "nav");
   TypeSel (str "header"); TypeSel (str "footer"); TypeSel (str "aside")].

(** The tags the selector above names. *)
Definition noiseTags : list jsstring :=
  [str "script"; str "style"; str "nav"; str "header"; str "footer"; str "aside"].

(** The body of both branches: strip, then read the text and cut it. *)
Definition stripped_text (element : node) (limit : nat) : jsstring :=
  let scripts := querySelectorAll element noiseSelector in
  let element' := forEach_remove scripts element in
  or_else (slice 0 limit (trim (textContent element'))) [].

Fixpoint getContent_loop (d : document) (selectors : list selector)
  : option jsstring :=
  match selectors with
  | [] => None
  | sel :: rest =>
      match querySelector d sel with
      | Some element => Some (stripped_text element 300)
      | None => getContent_loop d rest
      end
  end.

Definition getContent (d : document) : jsstring :=
  match getContent_loop d contentSelectors with
  | Some s => s
  | None =>
      match querySelector d [TypeSel (str "body")] with
      | Some body => stripped_text body 1000
      | None => []
      end
  end.

(** [part_000], lines 155-190: the fields before [truncateToVarCharLimit] and
    [normalizeText] are applied.  Only [new URL(url)] can throw.
    [getContent], which mutates the document, is evaluated last, so no
    other field sees the mutation. *)
Definition titleText (d : document) : option jsstring :=
  option_map textContent (querySelector d [TypeSel (str "title")]).

Definition siteName_raw (w : World) (d : document) (url : jsstring)
  : outcome jsstring :=
  let a := getMetaContent d (str "site_name") in
  if truthy a then Return a else
  let b := getMetaContent d (str "og:site_name") in
  if truthy b then Return b else
  match option_map (fun t => nth_error (split (str " | ") t) 1) (titleText d) with
  | Some (Some ((_ :: _) as part)) => Return part
  | _ => URL_hostname w url
  end.

Definition title_raw (d : document) : jsstring :=
  or_else (getMetaContent d (str "title"))
    (or_else (getMetaContent d (str "og:title"))
       (opt_or_else (option_map textContent (querySelector d [TypeSel (str "h1")]))
          (opt_or_else (titleText d) NO_TITLE))).

Definition description_raw (d : document) : jsstring :=
  or_else (getMetaContent d (str "description"))
    (or_else (getMetaContent d (str "og:description"))
       (or_else (getMetaContent d (str "twitter:description")) [])).

Definition time_datetime (d : document) : option jsstring :=
  match querySelector d [TypeSel (str "time")] with
  | Some t => getAttribute (str "datetime") t
  | None => None
  end.

Definition publishedAt_raw (w : World) (d : document) : jsstring :=
  or_else (getMetaContent d (str "article:modified_time"))
    (or_else (getMetaContent d (str "article:published_time"))
       (opt_or_else (time_datetime d) (Date_toISOString w))).

Definition thumbnail_raw (d : document) : jsstring :=
  or_else (getMetaContent d (str "image"))
    (or_else (getMetaContent d (str "og:image"))
       (or_else (getMetaContent d (str "twitter:image")) [])).

Definition articleData (w : World) (d : document) (u : jsstring)
  : outcome ArticleData :=
  match siteName_raw w d u with
  | Throw e => Throw e
  | Return site =>
      Return {| url := u;
                siteName := truncateToVarCharLimit site;
                title := truncateToVarCharLimit (title_raw d);
                description := truncateToVarCharLimit (description_raw d);
                publishedAt := publishedAt_raw w d;
                thumbnail := normalizeText (thumbnail_raw d);
                content := normalizeText (getContent d);
                isLiked := None;
                isArchived := None |}
  end.

(** [part_000], lines 41-202.  The local variables of the outer [try] block. *)
Record Locals : Type := {
  html : jsstring;
  shouldUsePuppeteer : bool
}.

Definition set_html (h : jsstring) : M Locals unit :=
  l <- read ;; write {| html := h; shouldUsePuppeteer := shouldUsePuppeteer l |}.

Definition set_shouldUsePuppeteer (b : bool) : M Locals unit :=
  l <- read ;; write {| html := html l; shouldUsePuppeteer := b |}.

(** [part_000], lines 53-83: the inner [try]/[catch]. *)
Definition staticFetch (w : World) (u : jsstring) : M Locals unit :=
  try_catch
    (emit (SetTimeout 10000) ;;;
     response <- perform (Fetch u USER_AGENT) (fetch w u) ;;
     emit ClearTimeout ;;;
     (if negb (ok response)
      then throw (ErrorObj (str "HTTP " ++ of_number (status response)
                              ++ str ": " ++ statusText response))
      else ret tt) ;;;
     h <- perform ResponseText (text response) ;;
     set_html h ;;;
     isJSRequired <- lift (checkIfJavaScriptRequired w h u) ;;
     if isJSRequired : bool then set_shouldUsePuppeteer true else ret tt)
    (fun error =>
       emit (ConsoleLog error) ;;;
       set_shouldUsePuppeteer true).

(** [part_000], lines 49-193: the outer [try] block. *)
Definition extractBody (w : World) (u : jsstring) : M Locals ArticleData :=
  staticFetch w u ;;;
  l <- read ;;
  (if shouldUsePuppeteer l
   then h <- call None (fetchWithPuppeteer w u) ;; set_html h
   else ret tt) ;;;
  l' <- read ;;
  d <- lift (JSDOM w (html l')) ;;
  lift (articleData w d u).

Definition extractionFailed (error : thrown) : thrown :=
  ErrorObj (MSG_FAILED_PREFIX ++
            match error with
            | ErrorObj message => message
            | OtherValue => MSG_UNKNOWN
            end).

Definition extractUrlData_M (w : World) (formData : FormData) : M unit ArticleData :=
  match FormData_get (str "url") formData with
  | Some ((_ :: _) as u) =>
      try_catch
        (call {| html := []; shouldUsePuppeteer := false |} (extractBody w u))
        (fun error =>
           emit (ConsoleError error) ;;;
           throw (extractionFailed error))
  | _ => throw (ErrorObj MSG_NO_URL)
  end.

(** One call of the action: the events it causes and how it ends. *)
Definition extractUrlData (w : World) (formData : FormData)
  : list event * outcome ArticleData :=
  let '((tr, _), r) := extractUrlData_M w formData ([], tt) in (tr, r).

End Action.
Export Action.

(* ===================================================================== *)
(** ** The earlier revision *)
(* ===================================================================== *)

Module Earlier.

(** [src/app/actions/extract-url-data.ts], lines 284-313: the same sources
    for every field, stored as found. *)
Definition articleData (w : World) (d : document) (u : jsstring)
  : outcome ArticleData :=
  match siteName_raw w d u with
  | Throw e => Throw e
  | Return site =>
      Return {| url := u;
                siteName := site;
                title := title_raw d;
                description := description_raw d;
                publishedAt := publishedAt_raw w d;
                thumbnail := thumbnail_raw d;
                content := getContent d;
                isLiked := None;
                isArchived := None |}
  end.

(** The rest of the earlier action is the code of the later one, word for
    word ([src/app/actions/extract-url-data.ts], lines 170-325): the same
    static stage, the same renderer, the same error handling. *)
Definition extractBody (w : World) (u : jsstring) : M Locals ArticleData :=
  (staticFetch w u ;;;
   l <- read ;;
   (if shouldUsePuppeteer l
    then h <- call None (fetchWithPuppeteer w u) ;; set_html h
    else ret tt) ;;;
   l' <- read ;;
   d <- lift (JSDOM w (html l')) ;;
   lift (articleData w d u))%action.

Definition extractUrlData_M (w : World) (formData : FormData) : M unit ArticleData :=
  match FormData_get (str "url") formData with
  | Some ((_ :: _) as u) =>
      try_catch
        (call {| html := []; shouldUsePuppeteer := false |} (extractBody w u))
        (fun error =>
           (emit (ConsoleError error) ;;;
            throw (extractionFailed error))%action)
  | _ => throw (ErrorObj MSG_NO_URL)
  end.

Definition extractUrlData (w : World) (formData : FormData)
  : list event * outcome ArticleData :=
  let '((tr, _), r) := extractUrlData_M w formData ([], tt) in (tr, r).

(** What the later revision does to each field of the record on top of
    the earlier one. *)
Definition normalizeRecord (a : ArticleData) : ArticleData :=
  {| url := url a;
     siteName := truncateToVarCharLimit (siteName a);
     title := truncateToVarCharLimit (title a);
     description := truncateToVarCharLimit (description a);
     publishedAt := publishedAt a;
     thumbnail := normalizeText (thumbnail a);
     content := normalizeText (content a);
     isLiked := isLiked a;
     isArchived := isArchived a |}.

End Earlier.

(* ===================================================================== *)
(** ** Reading a trace *)
(* ===================================================================== *)

Module Observations.

(** The calls [fetchWithPuppeteer] makes; [Launch] is the first of them. *)
Definition is_browser_event (ev : event) : bool :=
  match ev with
  | Launch | NewPage | SetUserAgent _ | Goto _ _ | Sleep _ | PageContent
  | BrowserClose => true
  | _ => false
  end.

(** The calls on the page, between launch and close. *)
Definition is_page_event (ev : event) : bool :=
  match ev with
  | NewPage | SetUserAgent _ | Goto _ _ | Sleep _ | PageContent => true
  | _ => false
  end.

Definition is_fetch (ev : event) : bool :=
  match ev with
  | Fetch _ _ => true
  | _ => false
  end.

Definition is_launch (ev : event) : bool :=
  match ev with
  | Launch => true
  | _ => false
  end.

Definition is_close (ev : event) : bool :=
  match ev with
  | BrowserClose => true
  | _ => false
  end.

Definition is_console_error (ev : event) : bool :=
  match ev with
  | ConsoleError _ => true
  | _ => false
  end.

(** How often an event of a kind occurs. *)
Definition count (p : event -> bool) (tr : list event) : nat :=
  length (filter p tr).

(** The headless renderer was invoked. *)
Definition rendererInvoked (tr : list event) : bool :=
  existsb is_browser_event tr.

(** How a run of the renderer for [u] ends: the HTML it returns or the
    error it throws. *)
Definition rendered (w : World) (u : jsstring) : outcome jsstring :=
  snd (fetchWithPuppeteer w u ([], None)).

(** The HTML a call with trace [tr] hands to the parser: the rendered page
    when the renderer ran, the body of the 2xx static response when it did
    not. *)
Definition parsed_html (w : World) (u : jsstring) (tr : list event)
  (h : jsstring) : Prop :=
  (rendererInvoked tr = true /\ page_content w = Return h)
  \/ (rendererInvoked tr = false
      /\ exists resp, fetch w u = Return resp /\ ok resp = true
                      /\ text resp = Return h).


(** [sub] occurs in [s]. *)
Definition substring (sub s : jsstring) : Prop :=
  exists pre post, s = pre ++ sub ++ post.



(** Every selector of the list finds nothing in the document. *)
Definition absent (d : document) (sels : list selector) : Prop :=
  forall sel, In sel sels -> querySelector d sel = None.

(** The sources of each field, in the order the action tries them. *)
Definition siteName_sources : list selector :=
  meta_selectors (str "site_name") ++ meta_selectors (str "og:site_name")
  ++ [[TypeSel (str "title")]].





(** The errors that can reach the outer [catch] of a call for [u]. *)
Definition downstream_failure (w : World) (u : jsstring) (e : thrown) : Prop :=
  launch w = Throw e \/ newPage w = Throw e \/ setUserAgent w = Throw e
  \/ goto w u = Throw e \/ page_content w = Throw e \/ close w = Throw e
  \/ (exists h, JSDOM w h = Throw e)
  \/ URL_hostname w u = Throw e.

End Observations.
Export Observations.

(* ===================================================================== *)
(** ** Sample pages and environments *)
(* ===================================================================== *)

Module Samples.

Definition el (i : nat) (name : string) (cs : list node) : node :=
  Element i (str name) [] cs.

Definition meta (i : nat) (key value : jsstring) : node :=
  Element i (str "meta") [(str "property", key); (str "content", value)] [].

(** An article with a navigation bar and an inline script. *)
Definition page_article : document :=
  [el 1 "html"
     [el 2 "head" [el 3 "title" [Text (str "Post | Site")]];
      el 4 "body"
        [el 5 "nav" [Text (str "menu")];
         el 6 "article"
           [Text (str " Hello "); el 7 "script" [Text (str "x()")];
            Text (str "world ")]]]].

(** A page with no container element and no metadata at all. *)
Definition page_plain : document :=
  [el 1 "html"
     [el 2 "head" [];
      el 3 "body" [el 4 "p" [Text (str "plain text")]; el 5 "footer" [Text (str "c")]]]].


(** A frameset page: the parser builds no body. *)
Definition page_frameset : document :=
  [el 1 "html" [el 2 "head" []; el 3 "frameset" []]].

(** A page whose metadata is longer and looser than a display column. *)
Definition page_long : document :=
  [el 1 "html"
     [el 2 "head"
        [meta 3 (str "og:title") (repeat 97%N 254 ++ str " b");
         meta 4 (str "og:image") (repeat 97%N 300);
         meta 5 (str "article:published_time") (str "1 Jan  2024")];
      el 6 "body" []]].

(** An empty title meta in front of a Twitter-card title and a heading. *)
Definition page_twitter : document :=
  [el 1 "html"
     [el 2 "head"
        [meta 3 (str "title") [];
         meta 4 (str "twitter:title") (str "Card title")];
      el 5 "body" [el 6 "h1" [Text (str "Heading")]]]].

(** An empty article in front of a body with text. *)
Definition page_empty_article : document :=
  [el 1 "html"
     [el 2 "head" [];
      el 3 "body"
        [el 4 "article" [Text (str "  "); el 5 "script" [Text (str "x()")]];
         el 6 "p" [Text (str "text outside the article")]]]].

(** A title with two separators and a [time] element without [datetime]. *)
Definition page_titled : document :=
  [el 1 "html"
     [el 2 "head" [el 3 "title" [Text (str "Post | Site | Section")]];
      el 4 "body" [el 5 "time" [Text (str "yesterday")]]]].

Definition NOW : jsstring := str "2026-01-01T00:00:00.000Z".

(** An environment: how the fetch ends, how navigation ends, what the
    browser renders, the document the parser builds and the hostname the
    URL parser gives. *)
Definition mkWorld (f : outcome Response) (nav : outcome unit)
  (rendered : jsstring) (d : document) (host : jsstring) : World :=
  {| fetch := fun _ => f;
     launch := Return tt;
     newPage := Return tt;
     setUserAgent := Return tt;
     goto := fun _ => nav;
     page_content := Return rendered;
     close := Return tt;
     JSDOM := fun _ => Return d;
     URL_hostname := fun _ => Return host;
     Date_toISOString := NOW |}.

Definition ok200 (body : jsstring) : outcome Response :=
  Return {| status := 200; statusText := str "OK"; text := Return body |}.

Definition notFound : outcome Response :=
  Return {| status := 404; statusText := str "Not Found"; text := Return [] |}.

Definition networkError : outcome Response :=
  Throw (ErrorObj (str "fetch failed")).

Definition form (u : string) : FormData := [(str "url", str u)].



End Samples.

(* ===================================================================== *)
(** ** Strings: normalisation *)
(* ===================================================================== *)

Section Normalisation.

Lemma isWhiteSpace_SPACE : isWhiteSpace SPACE = true.
Proof. reflexivity. Qed.

Lemma trimStart_starts (s : jsstring) : starts_ws (trimStart s) = false.
Proof.
  induction s as [|c r IH]; simpl; [reflexivity|].
  destruct (isWhiteSpace c) eqn:E; [exact IH | simpl; exact E].
Qed.

Lemma trimStart_id (s : jsstring) : starts_ws s = false -> trimStart s = s.
Proof. destruct s as [|c r]; simpl; [reflexivity | intros ->; reflexivity]. Qed.

Lemma trimStart_length (s : jsstring) : length (trimStart s) <= length s.
Proof.
  induction s as [|c r IH]; simpl; [lia|].
  destruct (isWhiteSpace c); simpl; lia.
Qed.

Lemma trimStart_app (a b : jsstring) :
  trimStart (a ++ b) =
  match trimStart a with
  | [] => trimStart b
  | _ :: _ => trimStart a ++ b
  end.
Proof.
  induction a as [|c r IH]; simpl; [reflexivity|].
  destruct (isWhiteSpace c); [exact IH | reflexivity].
Qed.

Lemma trimEnd_nil : trimEnd [] = [].
Proof. reflexivity. Qed.

(** [trimEnd], read from the front. *)
Lemma trimEnd_cons (c : code_unit) (r : jsstring) :
  trimEnd (c :: r) =
  match trimEnd r with
  | [] => if isWhiteSpace c then [] else [c]
  | _ :: _ => c :: trimEnd r
  end.
Proof.
  unfold trimEnd. simpl rev. rewrite trimStart_app.
  destruct (trimStart (rev r)) as [|x t] eqn:E; simpl.
  - destruct (isWhiteSpace c); reflexivity.
  - rewrite rev_app_distr. simpl.
    destruct (rev t ++ [x]) as [|y u] eqn:F.
    + destruct (rev t); discriminate.
    + reflexivity.
Qed.

Lemma replace_runs_true (s : jsstring) :
  replace_runs true s = replace_runs false (trimStart s).
Proof.
  induction s as [|c r IH]; simpl; [reflexivity|].
  destruct (isWhiteSpace c) eqn:E; [exact IH | simpl; rewrite E; reflexivity].
Qed.

Lemma replace_runs_starts (s : jsstring) :
  starts_ws s = false -> starts_ws (replace_runs false s) = false.
Proof.
  destruct s as [|c r]; simpl; [reflexivity|].
  intros E. rewrite E. simpl. exact E.
Qed.

(** Trimming the front commutes with collapsing the runs. *)
Lemma trimStart_replace (s : jsstring) :
  trimStart (replace_ws_by_space s) = replace_ws_by_space (trimStart s).
Proof.
  unfold replace_ws_by_space.
  destruct s as [|c r]; simpl; [reflexivity|].
  destruct (isWhiteSpace c) eqn:E.
  - simpl. rewrite replace_runs_true.
    apply trimStart_id, replace_runs_starts, trimStart_starts.
  - simpl. rewrite E. reflexivity.
Qed.

Lemma words_trimStart (s : jsstring) : words (trimStart s) = words s.
Proof.
  unfold words.
  induction s as [|c r IH]; [reflexivity|].
  simpl trimStart. destruct (isWhiteSpace c) eqn:E.
  - rewrite IH. simpl. rewrite E. reflexivity.
  - reflexivity.
Qed.

Lemma words_cons_ws (c : code_unit) (r : jsstring) :
  isWhiteSpace c = true -> words (c :: r) = words r.
Proof. unfold words. simpl. intros ->. reflexivity. Qed.

Lemma words_are_words (s : jsstring) : Forall is_word (words s).
Proof.
  unfold words.
  induction s as [|c r IH]; simpl; [constructor|].
  destruct (isWhiteSpace c) eqn:E; [exact IH|].
  assert (Hc : is_word [c]).
  { split; [discriminate | simpl; rewrite E; reflexivity]. }
  destruct r as [|d r']; [constructor; [exact Hc | constructor]|].
  destruct (isWhiteSpace d) eqn:F; [constructor; assumption|].
  destruct (tokens isWhiteSpace (d :: r')) as [|w ws]; [constructor; [exact Hc | constructor]|].
  inversion IH as [|? ? [Hw1 Hw2] Hws]; subst.
  constructor; [|exact Hws].
  split; [discriminate | simpl; rewrite E, Hw2; reflexivity].
Qed.

Lemma words_nonempty (s : jsstring) :
  s <> [] -> starts_ws s = false -> words s <> [].
Proof.
  unfold words.
  destruct s as [|c r]; [congruence|]. simpl. intros _ E. rewrite E.
  destruct r as [|d r']; [discriminate|].
  destruct (isWhiteSpace d); [discriminate|].
  destruct (tokens isWhiteSpace (d :: r')); discriminate.
Qed.

Lemma unwords_nil_inv (ws : list jsstring) :
  Forall is_word ws -> unwords ws = [] -> ws = [].
Proof.
  destruct ws as [|w rest]; [reflexivity|].
  intros H. inversion H as [|? ? [Hw _] _]; subst.
  simpl. destruct rest; destruct w; try congruence; discriminate.
Qed.

Lemma unwords_cons (w : jsstring) (rest : list jsstring) :
  unwords (w :: rest) =
  match rest with
  | [] => w
  | _ :: _ => w ++ SPACE :: unwords rest
  end.
Proof. reflexivity. Qed.

(** Collapsing and trimming the end of a string that starts with a word
    gives its words, single-spaced. *)
Lemma trimEnd_replace_words (n : nat) :
  forall s, length s <= n -> starts_ws s = false ->
            trimEnd (replace_ws_by_space s) = unwords (words s).
Proof.
  unfold replace_ws_by_space.
  induction n as [|n IH]; intros s Hlen Hs.
  - destruct s; [reflexivity | simpl in Hlen; lia].
  - destruct s as [|c r]; [reflexivity|].
    simpl in Hs, Hlen. simpl replace_runs. rewrite Hs.
    rewrite trimEnd_cons.
    destruct r as [|d r'].
    + unfold words. simpl. rewrite Hs. reflexivity.
    + destruct (isWhiteSpace d) eqn:F.
      * (* a run of whitespace follows the first word *)
        simpl replace_runs. rewrite F, replace_runs_true.
        rewrite trimEnd_cons.
        assert (Hr : length (trimStart r') <= n).
        { pose proof (trimStart_length r'). simpl in Hlen. lia. }
        rewrite (IH _ Hr (trimStart_starts r')).
        rewrite words_trimStart.
        assert (Hw : words (c :: d :: r') = [c] :: words r').
        { unfold words. simpl. rewrite Hs, F. reflexivity. }
        rewrite Hw, unwords_cons.
        destruct (words r') as [|w ws] eqn:W.
        { cbn [unwords]. rewrite isWhiteSpace_SPACE, Hs. reflexivity. }
        destruct (unwords (w :: ws)) as [|x u] eqn:U.
        -- apply unwords_nil_inv in U; [discriminate|].
           rewrite <- W. apply words_are_words.
        -- reflexivity.
      * (* the first word goes on *)
        assert (Hr : length (d :: r') <= n) by (simpl in *; lia).
        assert (Hd : starts_ws (d :: r') = false) by exact F.
        rewrite (IH _ Hr Hd).
        assert (Hne : words (d :: r') <> []).
        { apply words_nonempty; [discriminate | exact Hd]. }
        assert (Hw : words (c :: d :: r') =
                     match words (d :: r') with
                     | w :: ws => (c :: w) :: ws
                     | [] => [[c]]
                     end).
        { unfold words. simpl. rewrite Hs, F. reflexivity. }
        rewrite Hw.
        destruct (words (d :: r')) as [|w ws] eqn:W; [congruence|].
        destruct (unwords (w :: ws)) as [|x u] eqn:U.
        -- apply unwords_nil_inv in U; [discriminate|].
           rewrite <- W. apply words_are_words.
        -- rewrite <- U. destruct ws; reflexivity.
Qed.

(** [text.replace(/\s+/g, ' ').trim()] is the words of the text joined by
    single spaces. *)
Lemma trim_replace_words (s : jsstring) :
  trim (replace_ws_by_space s) = unwords (words s).
Proof.
  unfold trim. rewrite trimStart_replace.
  rewrite (@trimEnd_replace_words (length (trimStart s)) (trimStart s) (le_n _)
             (trimStart_starts s)).
  rewrite words_trimStart. reflexivity.
Qed.

Lemma normalizeText_words (text : jsstring) :
  normalizeText text = unwords (words text).
Proof.
  unfold normalizeText. destruct text as [|c r]; [reflexivity|].
  simpl negb. cbv iota. apply trim_replace_words.
Qed.

Lemma truncate_cut_of_normalizeText (text : jsstring) :
  truncateToVarCharLimit text = slice 0 255 (normalizeText text)
  /\ normalizeText text = unwords (words text).
Proof.
  split.
  - unfold truncateToVarCharLimit, normalizeText.
    destruct text; reflexivity.
  - apply normalizeText_words.
Qed.

Lemma truncate_words (text : jsstring) :
  truncateToVarCharLimit text = firstn 255 (unwords (words text)).
Proof.
  unfold truncateToVarCharLimit. destruct text as [|c r]; [reflexivity|].
  simpl negb. cbv iota. unfold slice. rewrite trim_replace_words.
  reflexivity.
Qed.

End Normalisation.


(* ===================================================================== *)
(** ** The DOM: removing elements *)
(* ===================================================================== *)

Section DomLemmas.

Lemma node_ind_nested (P : node -> Prop)
  (HT : forall d, P (Text d))
  (HC : forall d, P (Comment d))
  (HE : forall i name attrs cs, Forall P cs -> P (Element i name attrs cs)) :
  forall n, P n.
Proof.
  fix IH 1. intros [d|d|i name attrs cs]; [apply HT | apply HC |].
  apply HE. induction cs as [|c cs IHcs]; constructor; [apply IH | exact IHcs].
Qed.

Lemma on_element_prune (p bad : head_pred) (c : node) :
  on_element p (prune bad c) = on_element p c.
Proof. destruct c; reflexivity. Qed.

Lemma subtree_elements_are_elements (n c : node) :
  In c (subtree_elements n) -> exists i name attrs cs, c = Element i name attrs cs.
Proof.
  revert c. induction n as [d|d|i name attrs cs IH] using node_ind_nested;
    intros c Hc; simpl in Hc; try contradiction.
  destruct Hc as [<- | Hc]; [eauto|].
  apply in_flat_map in Hc. destruct Hc as [x [Hx Hc]].
  rewrite Forall_forall in IH. eapply IH; eassumption.
Qed.

Lemma descendants_subtree (n c : node) :
  In c (descendants n) -> In c (subtree_elements n).
Proof. destruct n; simpl; auto. Qed.

Lemma subtree_child (i : nat) (name : jsstring) (attrs : list (jsstring * jsstring))
  (cs : list node) (x c : node) :
  In x cs -> In c (subtree_elements x) ->
  In c (descendants (Element i name attrs cs)).
Proof. intros Hx Hc. simpl. apply in_flat_map. eauto. Qed.

(** Two tests that agree on every element below [n] prune [n] alike. *)
Lemma prune_ext_in (b b' : head_pred) (n : node) :
  (forall c, In c (descendants n) -> on_element b c = on_element b' c) ->
  prune b n = prune b' n.
Proof.
  induction n as [d|d|i name attrs cs IH] using node_ind_nested;
    intros H; try reflexivity.
  simpl. f_equal.
  assert (Hsub : forall x c, In x cs -> In c (subtree_elements x) ->
                             on_element b c = on_element b' c).
  { intros x c Hx Hc. apply H. eapply subtree_child; eassumption. }
  clear H. induction cs as [|x cs IHcs]; [reflexivity|].
  inversion IH as [|? ? Hx Hcs]; subst. simpl.
  rewrite !on_element_prune.
  assert (Ex : on_element b x = on_element b' x).
  { destruct x as [d|d|j nm at' xs]; try reflexivity.
    apply (Hsub (Element j nm at' xs)); simpl; auto. }
  rewrite Ex.
  assert (Epx : prune b x = prune b' x).
  { apply Hx. intros c Hc. apply (Hsub x); [left; reflexivity|].
    apply descendants_subtree. exact Hc. }
  rewrite Epx, IHcs; [reflexivity | exact Hcs |].
  intros y c Hy Hc. apply (Hsub y); [right; exact Hy | exact Hc].
Qed.

Lemma prune_ext (b b' : head_pred) (n : node) :
  (forall i name attrs, b i name attrs = b' i name attrs) ->
  prune b n = prune b' n.
Proof.
  intros H. apply prune_ext_in. intros c _. destruct c; simpl; auto.
Qed.

Lemma prune_none (n : node) : prune (fun _ _ _ => false) n = n.
Proof.
  induction n as [d|d|i name attrs cs IH] using node_ind_nested; try reflexivity.
  simpl. f_equal. induction cs as [|x cs IHcs]; [reflexivity|].
  inversion IH as [|? ? Hx Hcs]; subst. simpl.
  rewrite on_element_prune.
  replace (on_element (fun _ _ _ => false) x) with false by (destruct x; reflexivity).
  simpl. rewrite Hx, IHcs; [reflexivity | exact Hcs].
Qed.

(** Pruning twice is pruning by the disjunction. *)
Lemma prune_prune (b1 b2 : head_pred) (n : node) :
  prune b2 (prune b1 n) = prune (fun i name attrs => b1 i name attrs || b2 i name attrs) n.
Proof.
  induction n as [d|d|i name attrs cs IH] using node_ind_nested; try reflexivity.
  simpl. f_equal. induction cs as [|x cs IHcs]; [reflexivity|].
  inversion IH as [|? ? Hx Hcs]; subst. simpl.
  rewrite !on_element_prune.
  replace (on_element (fun i0 name0 attrs0 => b1 i0 name0 attrs0 || b2 i0 name0 attrs0) x)
    with (on_element b1 x || on_element b2 x) by (destruct x; reflexivity).
  destruct (on_element b1 x) eqn:E1; simpl.
  - apply IHcs. exact Hcs.
  - rewrite !on_element_prune.
    destruct (on_element b2 x) eqn:E2; simpl.
    + apply IHcs. exact Hcs.
    + rewrite Hx, IHcs; [reflexivity | exact Hcs].
Qed.

Lemma forEach_remove_prune (l : list node) :
  forall (b : head_pred) (n : node),
    forEach_remove l (prune b n) =
    prune (fun i name attrs =>
             b i name attrs || existsb (fun el => Nat.eqb i (node_id el)) l) n.
Proof.
  unfold forEach_remove.
  induction l as [|el l IH]; intros b n; simpl.
  - apply prune_ext. intros. rewrite orb_false_r. reflexivity.
  - unfold remove at 2. rewrite prune_prune, IH.
    apply prune_ext. intros. rewrite orb_assoc. reflexivity.
Qed.

Lemma NoDup_map_injective {A B : Type} (f : A -> B) (l : list A) (x y : A) :
  NoDup (map f l) -> In x l -> In y l -> f x = f y -> x = y.
Proof.
  induction l as [|a l IH]; simpl; [contradiction|].
  intros Hnd Hx Hy E. inversion Hnd as [|? ? Hnotin Hnd']; subst.
  destruct Hx as [<- | Hx], Hy as [<- | Hy]; try reflexivity.
  - exfalso. apply Hnotin. rewrite E. apply in_map. exact Hy.
  - exfalso. apply Hnotin. rewrite <- E. apply in_map. exact Hx.
  - apply IH; assumption.
Qed.

(** [querySelectorAll] followed by [forEach((el) => el.remove())] leaves the
    element without the descendants that match the selector. *)
Lemma forEach_remove_querySelectorAll (element : node) (sel : selector) :
  distinct_ids element ->
  forEach_remove (querySelectorAll element sel) element = prune (matches sel) element.
Proof.
  intros Hnd.
  rewrite <- (prune_none element) at 2.
  rewrite forEach_remove_prune. simpl.
  apply prune_ext_in. intros c Hc.
  destruct (subtree_elements_are_elements _ _ (descendants_subtree _ _ Hc))
    as [i [name [attrs [cs ->]]]].
  simpl.
  destruct (matches sel i name attrs) eqn:Em.
  - apply existsb_exists. exists (Element i name attrs cs). split.
    + unfold querySelectorAll. apply filter_In. split; [exact Hc | exact Em].
    + simpl. apply Nat.eqb_refl.
  - destruct (existsb _ _) eqn:Ex; [|reflexivity].
    apply existsb_exists in Ex. destruct Ex as [el [Hel Hid]].
    apply Nat.eqb_eq in Hid.
    unfold querySelectorAll in Hel. apply filter_In in Hel.
    destruct Hel as [Hel Hm].
    assert (el = Element i name attrs cs) as ->.
    { apply (NoDup_map_injective node_id (subtree_elements element)).
      - exact Hnd.
      - apply descendants_subtree. exact Hel.
      - apply descendants_subtree. exact Hc.
      - simpl. symmetry. exact Hid. }
    simpl in Hm. congruence.
Qed.

End DomLemmas.

(* ===================================================================== *)
(** ** Body-content extraction *)
(* ===================================================================== *)

Section GetContent.

Lemma eqb_eq (a b : jsstring) : eqb a b = true <-> a = b.
Proof.
  revert b. induction a as [|x a IH]; intros [|y b]; simpl;
    try (split; [discriminate | congruence]); [tauto|].
  rewrite andb_true_iff, N.eqb_eq, IH. split.
  - intros [-> ->]. reflexivity.
  - intros E. injection E as -> ->. auto.
Qed.

Lemma or_else_empty (s : jsstring) : or_else s [] = s.
Proof. destruct s; reflexivity. Qed.

Lemma stripped_text_prune (element : node) (limit : nat) :
  distinct_ids element ->
  stripped_text element limit =
  slice 0 limit (trim (textContent (prune (matches noiseSelector) element))).
Proof.
  intros H. unfold stripped_text.
  rewrite or_else_empty, forEach_remove_querySelectorAll by exact H.
  reflexivity.
Qed.

(** The loop stops at the first selector of the list that matches. *)
Lemma getContent_loop_first (d : document) (pre : list selector) :
  forall sel post element,
    (forall s, In s pre -> querySelector d s = None) ->
    querySelector d sel = Some element ->
    getContent_loop d (pre ++ sel :: post) = Some (stripped_text element 300).
Proof.
  induction pre as [|p pre IH]; intros sel post element Hpre Hsel; simpl.
  - rewrite Hsel. reflexivity.
  - rewrite (Hpre p) by (left; reflexivity).
    apply IH; [|exact Hsel]. intros s Hs. apply Hpre. right. exact Hs.
Qed.

Lemma getContent_loop_none (d : document) (sels : list selector) :
  (forall s, In s sels -> querySelector d s = None) ->
  getContent_loop d sels = None.
Proof.
  induction sels as [|p sels IH]; intros H; simpl; [reflexivity|].
  rewrite (H p) by (left; reflexivity).
  apply IH. intros s Hs. apply H. right. exact Hs.
Qed.

Lemma matches_noiseSelector (i : nat) (name : jsstring)
  (attrs : list (jsstring * jsstring)) :
  matches noiseSelector i name attrs = true <-> In name noiseTags.
Proof.
  unfold matches, noiseSelector, noiseTags. cbn [existsb matches_compound In].
  rewrite !orb_true_iff, !eqb_eq.
  intuition (try discriminate; subst; auto).
Qed.

End GetContent.

(** C6: [getContent] goes through the container selectors in their fixed
    order; at the first one that matches, the matched element loses its
    script, style, nav, header, footer and aside descendants and the result is
    its trimmed text content cut at 300 code units; when none matches, the
    same is done to the body with the cut at 1000; with no body the result is
    the empty string. *)
Theorem getContent_spec (d : document) :
  (forall pre sel post element,
      contentSelectors = pre ++ sel :: post ->
      (forall s, In s pre -> querySelector d s = None) ->
      querySelector d sel = Some element ->
      distinct_ids element ->
      getContent d =
      slice 0 300 (trim (textContent (prune (matches noiseSelector) element))))
  /\ (forall body,
         (forall s, In s contentSelectors -> querySelector d s = None) ->
         querySelector d [TypeSel (str "body")] = Some body ->
         distinct_ids body ->
         getContent d =
         slice 0 1000 (trim (textContent (prune (matches noiseSelector) body))))
  /\ ((forall s, In s contentSelectors -> querySelector d s = None) ->
      querySelector d [TypeSel (str "body")] = None ->
      getContent d = [])
  /\ (forall i name attrs,
         matches noiseSelector i name attrs = true <-> In name noiseTags).
Proof.
  repeat apply conj.
  - intros pre sel post element Hsplit Hpre Hsel Hids.
    unfold getContent. rewrite Hsplit.
    rewrite (getContent_loop_first d pre sel post Hpre Hsel).
    apply stripped_text_prune. exact Hids.
  - intros body Hnone Hbody Hids.
    unfold getContent. rewrite (getContent_loop_none d _ Hnone), Hbody.
    apply stripped_text_prune. exact Hids.
  - intros Hnone Hbody.
    unfold getContent. rewrite (getContent_loop_none d _ Hnone), Hbody.
    reflexivity.
  - apply matches_noiseSelector.
Qed.

Ltac all_absent :=
  let s := fresh "s" in
  let Hs := fresh "Hs" in
  intros s Hs; simpl in Hs;
  repeat (destruct Hs as [<- | Hs]; [vm_compute; reflexivity|]);
  contradiction.

Ltac ids_distinct :=
  unfold distinct_ids; simpl;
  repeat (constructor; [simpl; intuition (try discriminate; try lia)|]);
  constructor.

Lemma getContent_spec_witness :
  getContent Samples.page_article = str "Hello world"
  /\ getContent Samples.page_plain = str "plain text"
  /\ getContent Samples.page_frameset = [].
Proof.
  split; [|split].
  - refine (eq_trans
              (proj1 (getContent_spec Samples.page_article)
                 [] [TypeSel (str "article")] _
                 (Samples.el 6 "article"
                    [Text (str " Hello "); Samples.el 7 "script" [Text (str "x()")];
                     Text (str "world ")])
                 eq_refl _ eq_refl _) _).
    + all_absent.
    + ids_distinct.
    + vm_compute. reflexivity.
  - refine (eq_trans
              (proj1 (proj2 (getContent_spec Samples.page_plain))
                 (Samples.el 3 "body"
                    [Samples.el 4 "p" [Text (str "plain text")];
                     Samples.el 5 "footer" [Text (str "c")]])
                 _ eq_refl _) _).
    + all_absent.
    + ids_distinct.
    + vm_compute. reflexivity.
  - apply (proj1 (proj2 (proj2 (getContent_spec Samples.page_frameset)))).
    + all_absent.
    + vm_compute. reflexivity.
Defined.

(* ===================================================================== *)
(** ** Running the action *)
(* ===================================================================== *)

Arguments USER_AGENT : simpl never.
Arguments of_number : simpl never.
Arguments str : simpl never.
Arguments checkIfJavaScriptRequired : simpl never.
Arguments articleData : simpl never.

(** Case analysis on the way the next call to the outside ends. *)
Ltac destruct_call :=
  match goal with
  | |- context [match ?o with Return _ => _ | Throw _ => _ end] =>
      lazymatch o with
      | launch _ => destruct o as [[]|?] eqn:?
      | newPage _ => destruct o as [[]|?] eqn:?
      | setUserAgent _ => destruct o as [[]|?] eqn:?
      | goto _ _ => destruct o as [[]|?] eqn:?
      | close _ => destruct o as [[]|?] eqn:?
      | page_content _ => destruct o as [?|?] eqn:?
      | fetch _ _ => destruct o as [?|?] eqn:?
      | text _ => destruct o as [?|?] eqn:?
      | JSDOM _ _ => destruct o as [?|?] eqn:?
      | checkIfJavaScriptRequired _ _ _ => destruct o as [[|]|?] eqn:?
      | articleData _ _ _ => destruct o as [?|?] eqn:?
      end
  | |- context [if negb (ok ?r) then _ else _] => destruct (ok r) eqn:?
  end.

(** Symbolic execution of the monadic code, branching on every call. *)
Ltac exec :=
  unfold extractBody, staticFetch, fetchWithPuppeteer, set_html,
    set_shouldUsePuppeteer, try_finally, try_catch, call, bind, perform, emit,
    write, read, ret, throw, lift;
  cbn [fst snd html shouldUsePuppeteer negb app];
  repeat (destruct_call; cbn [fst snd html shouldUsePuppeteer negb app]).

Ltac start_call Hget Hu :=
  unfold extractUrlData, extractUrlData_M; rewrite Hget;
  match type of Hu with
  | ?u <> [] => destruct u; [congruence|]
  end.

Section Includes.

Lemma startsWith_spec (s p : jsstring) :
  startsWith s p = true <-> exists post, s = p ++ post.
Proof.
  revert s. induction p as [|a p IH]; intros s; simpl.
  - split; [intros _; exists s; reflexivity | intros _; destruct s; reflexivity].
  - destruct s as [|b s]; simpl.
    + split; [discriminate | intros [post E]; discriminate].
    + rewrite andb_true_iff, N.eqb_eq, IH. split.
      * intros [-> [post ->]]. exists post. reflexivity.
      * intros [post E]. injection E as -> ->. split; [reflexivity | eauto].
Qed.

(** [includes] is substring containment. *)
Lemma includes_spec (s sub : jsstring) :
  includes s sub = true <-> substring sub s.
Proof.
  unfold substring. induction s as [|c r IH].
  - cbn [includes]. rewrite orb_false_r, startsWith_spec. split.
    + intros [post E]. exists [], post. exact E.
    + intros [pre [post E]]. destruct pre; [|discriminate].
      exists post. exact E.
  - cbn [includes]. rewrite orb_true_iff, startsWith_spec, IH. split.
    + intros [[post E] | [pre [post E]]].
      * exists [], post. exact E.
      * exists (c :: pre), post. rewrite E. reflexivity.
    + intros [pre [post E]]. destruct pre as [|x pre].
      * left. exists post. exact E.
      * right. injection E as -> E. exists pre, post. exact E.
Qed.

Lemma includes_false (s sub : jsstring) :
  ~ substring sub s -> includes s sub = false.
Proof.
  intros H. destruct (includes s sub) eqn:E; [|reflexivity].
  exfalso. apply H, includes_spec, E.
Qed.

Lemma existsb_false {A : Type} (f : A -> bool) (l : list A) :
  (forall x, In x l -> f x = false) -> existsb f l = false.
Proof.
  induction l as [|a l IH]; intros H; simpl; [reflexivity|].
  rewrite (H a) by (left; reflexivity). apply IH. intros x Hx. apply H. right. exact Hx.
Qed.


(** Outside the allow-list the answer is the marker test on the HTML. *)
Lemma check_no_domain (w : World) (h u host : jsstring) :
  URL_hostname w u = Return host ->
  (forall d, In d jsRequiredDomains -> ~ substring d host) ->
  checkIfJavaScriptRequired w h u
  = Return (existsb (fun indicator => includes h indicator) jsIndicators).
Proof.
  intros Hh Hd. unfold checkIfJavaScriptRequired. rewrite Hh.
  rewrite existsb_false; [reflexivity|].
  intros d Hin. apply includes_false, Hd, Hin.
Qed.


End Includes.





(** C3, as the specification states it, fails: a URL on an allow-listed
    host whose static fetch returns 200 and a body without any framework
    marker is still rendered. *)
Lemma static_page_renderer_counterexample :
  ~ (forall (w : World) (fd : FormData) (u : jsstring) (resp : Response)
            (body : jsstring),
        FormData_get (str "url") fd = Some u -> u <> [] ->
        fetch w u = Return resp -> ok resp = true -> text resp = Return body ->
        (forall m, In m jsIndicators -> ~ substring m body) ->
        rendererInvoked (fst (extractUrlData w fd)) = false).
Proof.
  intros H.
  specialize (H (Samples.mkWorld (Samples.ok200 (str "<html><body>static</body></html>"))
                   (Return tt) (str "<html></html>") Samples.page_plain (str "qiita.com"))
                (Samples.form "https://qiita.com/items/1")
                (str "https://qiita.com/items/1")
                {| status := 200; statusText := str "OK";
                   text := Return (str "<html><body>static</body></html>") |}
                (str "<html><body>static</body></html>")
                eq_refl).
  assert (Hm : forall m, In m jsIndicators ->
                         ~ substring m (str "<html><body>static</body></html>")).
  { intros m Hin Hsub. apply includes_spec in Hsub.
    simpl in Hin.
    repeat (destruct Hin as [<- | Hin]; [vm_compute in Hsub; discriminate|]).
    contradiction. }
  specialize (H ltac:(discriminate) eq_refl eq_refl eq_refl Hm).
  vm_compute in H. discriminate.
Qed.

(** C3 (amended): for every URL whose hostname contains none of the
    allow-listed domains, whose static fetch returns a 2xx response and whose
    response body contains none of the framework-mount markers, the headless
    renderer is never invoked. *)
Theorem static_page_without_markers_not_rendered
  (w : World) (fd : FormData) (u host : jsstring) (resp : Response)
  (body : jsstring) :
  FormData_get (str "url") fd = Some u -> u <> [] ->
  URL_hostname w u = Return host ->
  (forall d, In d jsRequiredDomains -> ~ substring d host) ->
  fetch w u = Return resp -> ok resp = true -> text resp = Return body ->
  (forall m, In m jsIndicators -> ~ substring m body) ->
  rendererInvoked (fst (extractUrlData w fd)) = false.
Proof.
  intros Hget Hu Hh Hd Hf Hok Ht Hm.
  assert (Hc : checkIfJavaScriptRequired w body u = Return false).
  { rewrite (check_no_domain w body u Hh Hd).
    rewrite existsb_false; [reflexivity|].
    intros m Hin. apply includes_false, Hm, Hin. }
  start_call Hget Hu.
  unfold extractBody, staticFetch, try_catch, call, bind, perform, emit.
  cbn [fst snd app]. rewrite Hf. cbn [fst snd app]. rewrite Hok.
  cbn [negb]. unfold ret, bind, perform. cbn [fst snd app]. rewrite Ht.
  unfold set_html, lift, bind, read, write, ret. cbn [fst snd html shouldUsePuppeteer].
  rewrite Hc. cbn [fst snd html shouldUsePuppeteer].
  exec; reflexivity.
Qed.

Lemma static_page_without_markers_not_rendered_witness :
  rendererInvoked
    (fst (extractUrlData
            (Samples.mkWorld (Samples.ok200 (str "<html><body>static</body></html>"))
               (Return tt) (str "<html></html>") Samples.page_plain (str "example.com"))
            (Samples.form "https://example.com/post"))) = false.
Proof.
  apply (@static_page_without_markers_not_rendered _ _
           (str "https://example.com/post") (str "example.com")
           {| status := 200; statusText := str "OK";
              text := Return (str "<html><body>static</body></html>") |}
           (str "<html><body>static</body></html>")).
  - reflexivity.
  - discriminate.
  - reflexivity.
  - intros d Hin Hsub. apply includes_spec in Hsub. simpl in Hin.
    repeat (destruct Hin as [<- | Hin]; [vm_compute in Hsub; discriminate|]).
    contradiction.
  - reflexivity.
  - reflexivity.
  - reflexivity.
  - intros m Hin Hsub. apply includes_spec in Hsub. simpl in Hin.
    repeat (destruct Hin as [<- | Hin]; [vm_compute in Hsub; discriminate|]).
    contradiction.
Defined.

(** C5: when the static fetch throws (network error, timeout) or returns a
    non-2xx status, [extractUrlData] logs the failure and goes straight to the
    headless renderer: the launch is the next event, there is no second
    fetch, and the result of the call is the one the rendered HTML gives. *)
Theorem fetch_failure_falls_back (w : World) (fd : FormData) (u : jsstring) :
  FormData_get (str "url") fd = Some u -> u <> [] ->
  ((exists e, fetch w u = Throw e)
   \/ (exists resp, fetch w u = Return resp /\ ok resp = false)) ->
  (exists logged post,
      (fst (extractUrlData w fd)
       = [SetTimeout 10000; Fetch u USER_AGENT; ConsoleLog logged] ++ Launch :: post
       \/ fst (extractUrlData w fd)
          = [SetTimeout 10000; Fetch u USER_AGENT; ClearTimeout; ConsoleLog logged]
              ++ Launch :: post)
      /\ existsb is_fetch post = false)
  /\ (forall h,
         launch w = Return tt -> newPage w = Return tt ->
         setUserAgent w = Return tt -> goto w u = Return tt ->
         page_content w = Return h -> close w = Return tt ->
         snd (extractUrlData w fd)
         = match JSDOM w h with
           | Return d =>
               match articleData w d u with
               | Return a => Return a
               | Throw e => Throw (extractionFailed e)
               end
           | Throw e => Throw (extractionFailed e)
           end).
Proof.
  intros Hget Hu Hfail. start_call Hget Hu. split.
  - destruct Hfail as [[e He] | [resp [Hr Hok]]]; exec; try congruence.
    all: match goal with
         | |- exists logged post, (?l = _ \/ _) /\ _ =>
             lazymatch l with
             | _ :: _ :: ConsoleLog ?x :: Launch :: ?rest =>
                 exists x, rest; split; [left; reflexivity | reflexivity]
             | _ :: _ :: _ :: ConsoleLog ?x :: Launch :: ?rest =>
                 exists x, rest; split; [right; reflexivity | reflexivity]
             end
         end.
  - intros h H1 H2 H3 H4 H5 H6.
    destruct Hfail as [[e He] | [resp [Hr Hok]]]; exec; try congruence.
    all: repeat match goal with
           | H : page_content _ = Return ?x, H' : page_content _ = Return ?y |- _ =>
               assert (x = y) by congruence; subst x; clear H
           end.
    all: repeat match goal with
           | H : ?t = _ |- context [?t] => rewrite H
           end.
    all: reflexivity.
Qed.

Lemma fetch_failure_falls_back_witness :
  (exists logged post,
      (fst (extractUrlData
              (Samples.mkWorld Samples.notFound (Return tt)
                 (str "<html></html>") Samples.page_plain (str "example.com"))
              (Samples.form "https://example.com/gone"))
       = [SetTimeout 10000; Fetch (str "https://example.com/gone") USER_AGENT;
          ConsoleLog logged] ++ Launch :: post
       \/ fst (extractUrlData
                 (Samples.mkWorld Samples.notFound (Return tt)
                    (str "<html></html>") Samples.page_plain (str "example.com"))
                 (Samples.form "https://example.com/gone"))
          = [SetTimeout 10000; Fetch (str "https://example.com/gone") USER_AGENT;
             ClearTimeout; ConsoleLog logged] ++ Launch :: post)
      /\ existsb is_fetch post = false)
  /\ exists a,
      snd (extractUrlData
             (Samples.mkWorld Samples.notFound (Return tt)
                (str "<html></html>") Samples.page_plain (str "example.com"))
             (Samples.form "https://example.com/gone")) = Return a
      /\ content a = str "plain text".
Proof.
  destruct (@fetch_failure_falls_back
              (Samples.mkWorld Samples.notFound (Return tt)
                 (str "<html></html>") Samples.page_plain (str "example.com"))
              (Samples.form "https://example.com/gone")
              (str "https://example.com/gone")
              eq_refl ltac:(discriminate)
              (or_intror (ex_intro _ _ (conj eq_refl eq_refl)))) as [Htrace Hresult].
  split; [exact Htrace|].
  rewrite (Hresult (str "<html></html>") eq_refl eq_refl eq_refl eq_refl eq_refl eq_refl).
  vm_compute. eexists. split; reflexivity.
Defined.

(** C9: on every execution of [fetchWithPuppeteer] in which the browser
    was launched, [browser.close()] is the last thing the function does before
    it returns or lets an exception out, on the success path and when
    [newPage], [setUserAgent], [goto] or [content] throws; between the launch
    and the close there are page calls only. *)
Theorem fetchWithPuppeteer_closes_browser
  (w : World) (u : jsstring) (tr : list event) :
  launch w = Return tt ->
  exists evs r,
    fetchWithPuppeteer w u (tr, None)
    = ((tr ++ Launch :: evs ++ [BrowserClose], Some BrowserHandle), r)
    /\ forallb is_page_event evs = true.
Proof.
  intros H. exec; try discriminate.
  all: rewrite <- ?app_assoc; cbn [app].
  all: match goal with
       | |- exists evs r, (?t ++ Launch :: ?l, _, ?res) = _ /\ _ =>
           exists (removelast l), res; split; reflexivity
       end.
Qed.

Lemma fetchWithPuppeteer_closes_browser_witness :
  exists evs r,
    fetchWithPuppeteer
      (Samples.mkWorld Samples.networkError (Throw (ErrorObj (str "Navigation timeout")))
         (str "<html></html>") Samples.page_plain (str "example.com"))
      (str "https://example.com/") ([], None)
    = (([] ++ Launch :: evs ++ [BrowserClose], Some BrowserHandle), r)
    /\ forallb is_page_event evs = true.
Proof.
  apply (@fetchWithPuppeteer_closes_browser
           (Samples.mkWorld Samples.networkError
              (Throw (ErrorObj (str "Navigation timeout")))
              (str "<html></html>") Samples.page_plain (str "example.com"))
           (str "https://example.com/") []).
  reflexivity.
Defined.

Section FailureModes.

Lemma articleData_throw (w : World) (d : document) (u : jsstring) (e : thrown) :
  articleData w d u = Throw e -> URL_hostname w u = Throw e.
Proof.
  unfold articleData, siteName_raw. intros H.
  destruct (truthy (getMetaContent d (str "site_name"))); [discriminate|].
  destruct (truthy (getMetaContent d (str "og:site_name"))); [discriminate|].
  destruct (option_map _ (titleText d)) as [[[|c part]|]|];
    try discriminate;
    (destruct (URL_hostname w u); [discriminate | congruence]).
Qed.

Lemma articleData_url (w : World) (d : document) (u : jsstring) (a : ArticleData) :
  articleData w d u = Return a -> url a = u.
Proof.
  unfold articleData. intros H.
  destruct (siteName_raw w d u); [|discriminate].
  injection H as <-. reflexivity.
Qed.

Lemma extractionFailed_not_missing (e : thrown) :
  extractionFailed e <> ErrorObj MSG_NO_URL.
Proof. unfold extractionFailed. destruct e; discriminate. Qed.

End FailureModes.

Ltac failure_origin :=
  unfold downstream_failure;
  first
    [ left; eassumption
    | right; left; eassumption
    | do 2 right; left; eassumption
    | do 3 right; left; eassumption
    | do 4 right; left; eassumption
    | do 5 right; left; eassumption
    | do 6 right; left; eexists; eassumption
    | do 7 right; apply articleData_throw with (1 := ltac:(eassumption)) ].

(** C4, as stated, fails for the static fetch: a failure during the fetch
    is caught by the inner handler and answered by the render fallback; it
    is not re-thrown, and a call whose fetch fails can return a record. *)
Lemma fetch_failure_rethrown_counterexample :
  ~ (forall (w : World) (fd : FormData) (u : jsstring) (e : thrown),
        FormData_get (str "url") fd = Some u -> u <> [] ->
        fetch w u = Throw e ->
        snd (extractUrlData w fd) = Throw (extractionFailed e)).
Proof.
  intros H.
  specialize (H (Samples.mkWorld Samples.networkError (Return tt)
                   (str "<html></html>") Samples.page_plain (str "example.com"))
                (Samples.form "https://example.com/post")
                (str "https://example.com/post")
                (ErrorObj (str "fetch failed"))
                eq_refl ltac:(discriminate) eq_refl).
  vm_compute in H. discriminate.
Qed.

Lemma articleData_return (w : World) (d : document) (u : jsstring)
  (a : ArticleData) :
  articleData w d u = Return a ->
  exists site,
    siteName_raw w d u = Return site
    /\ a = {| url := u;
              siteName := truncateToVarCharLimit site;
              title := truncateToVarCharLimit (title_raw d);
              description := truncateToVarCharLimit (description_raw d);
              publishedAt := publishedAt_raw w d;
              thumbnail := normalizeText (thumbnail_raw d);
              content := normalizeText (getContent d);
              isLiked := None;
              isArchived := None |}.
Proof.
  unfold articleData. intros H.
  destruct (siteName_raw w d u) as [site|]; [|discriminate].
  injection H as <-. exists site. split; reflexivity.
Qed.

(** Rewriting with what is known about the calls of the environment. *)
Ltac rewrite_calls :=
  repeat match goal with
    | H : launch _ = _ |- _ => rewrite H
    | H : newPage _ = _ |- _ => rewrite H
    | H : setUserAgent _ = _ |- _ => rewrite H
    | H : goto _ _ = _ |- _ => rewrite H
    | H : page_content _ = _ |- _ => rewrite H
    | H : close _ = _ |- _ => rewrite H
    | H : JSDOM _ _ = _ |- _ => rewrite H
    | H : articleData _ _ _ = _ |- _ => rewrite H
    end.

Ltac run_rendered :=
  unfold rendered, fetchWithPuppeteer, try_finally, bind, perform, emit, write,
    read, ret;
  cbn [fst snd];
  repeat (progress (rewrite_calls; cbn [fst snd])).

(** C4 (amended): [extractUrlData] fails in exactly two ways.  With the URL
    missing (absent from the form data, or empty) it throws the missing-URL
    error at once, before any event.  Otherwise the call is decided by the
    HTML it gets, the rendered page when the renderer runs and the body of
    the 2xx static response when it does not: an error thrown by the render,
    by the parse of that HTML or by the construction of the record is caught
    and re-thrown as the one extraction-failed error, with that error's
    message after the fixed prefix (and logged last), and when none of them
    throws the call returns the complete record built from the parsed
    document, every field set.  A failure of the static fetch is not among
    the errors re-thrown: after it the call goes on to the renderer.  The two
    errors differ. *)
Theorem extractUrlData_failure_modes (w : World) (fd : FormData) :
  ((FormData_get (str "url") fd = None \/ FormData_get (str "url") fd = Some []) ->
   extractUrlData w fd = ([], Throw (ErrorObj MSG_NO_URL)))
  /\ (forall u, FormData_get (str "url") fd = Some u -> u <> [] ->
      (exists H : outcome jsstring,
          ((rendererInvoked (fst (extractUrlData w fd)) = true
            /\ H = rendered w u)
           \/ (rendererInvoked (fst (extractUrlData w fd)) = false
               /\ exists resp h,
                   fetch w u = Return resp /\ ok resp = true
                   /\ text resp = Return h /\ H = Return h))
          /\ snd (extractUrlData w fd)
             = match H with
               | Throw e => Throw (extractionFailed e)
               | Return h =>
                   match JSDOM w h with
                   | Throw e => Throw (extractionFailed e)
                   | Return d =>
                       match articleData w d u with
                       | Throw e => Throw (extractionFailed e)
                       | Return a => Return a
                       end
                   end
               end)
      /\ match extractUrlData w fd with
         | (tr, Return a) =>
             exists h d site,
               parsed_html w u tr h
               /\ JSDOM w h = Return d
               /\ siteName_raw w d u = Return site
               /\ a = {| url := u;
                         siteName := truncateToVarCharLimit site;
                         title := truncateToVarCharLimit (title_raw d);
                         description := truncateToVarCharLimit (description_raw d);
                         publishedAt := publishedAt_raw w d;
                         thumbnail := normalizeText (thumbnail_raw d);
                         content := normalizeText (getContent d);
                         isLiked := None;
                         isArchived := None |}
         | (tr, Throw x) =>
             exists e tr0,
               downstream_failure w u e
               /\ x = extractionFailed e
               /\ (forall m, e = ErrorObj m -> x = ErrorObj (MSG_FAILED_PREFIX ++ m))
               /\ x <> ErrorObj MSG_NO_URL
               /\ tr = tr0 ++ [ConsoleError e]
         end
      /\ (forall e, fetch w u = Throw e ->
                    rendererInvoked (fst (extractUrlData w fd)) = true)).
Proof.
  split.
  - unfold extractUrlData, extractUrlData_M.
    intros [-> | ->]; reflexivity.
  - intros u Hget Hu. start_call Hget Hu. exec.
    all: split; [|split].
    (* a failed fetch goes on to the renderer *)
    all: try match goal with
         | |- forall e, _ = Throw e -> _ =>
             let e := fresh "e" in
             let He := fresh "He" in
             intros e He; first [discriminate He | reflexivity]
         end.
    (* the result, from the HTML the call gets *)
    all: try match goal with
         | |- exists H, ((_ /\ H = rendered ?w' ?u') \/ _) /\ _ =>
             first
               [ exists (rendered w' u');
                 split; [left; split; reflexivity|];
                 run_rendered; reflexivity
               | match goal with
                 | Ht : text _ = Return ?h |- _ =>
                     exists (Return h);
                     split;
                     [ right; split; [reflexivity|];
                       do 2 eexists; repeat split; eassumption
                     | rewrite_calls; reflexivity ]
                 end ]
         end.
    (* a returned record is complete *)
    all: try match goal with
         | Ha : articleData _ ?d _ = Return _ |- exists h d' site, _ =>
             destruct (articleData_return _ _ _ Ha) as [site [Hsite ->]];
             eexists _, d, site;
             split;
             [ first
                 [ left; split; [reflexivity | eassumption]
                 | right; split; [reflexivity|];
                   eexists; repeat split; eassumption ]
             | split; [eassumption | split; [exact Hsite | reflexivity]] ]
         end.
    (* a thrown error is the generic one *)
    all: match goal with
         | |- exists e tr0, _ /\ extractionFailed ?x = _ /\ _ /\ _ /\ ?l = _ =>
             exists x, (removelast l);
             split; [failure_origin|];
             split; [reflexivity|];
             split; [intros m ->; reflexivity|];
             split; [apply extractionFailed_not_missing | reflexivity]
         end.
Qed.

Lemma extractUrlData_failure_modes_witness :
  extractUrlData
    (Samples.mkWorld Samples.networkError (Return tt)
       (str "<html></html>") Samples.page_plain (str "example.com"))
    [(str "title", str "no url field")]
  = ([], Throw (ErrorObj MSG_NO_URL))
  /\ snd (extractUrlData
            (Samples.mkWorld Samples.networkError
               (Throw (ErrorObj (str "Navigation timeout")))
               (str "<html></html>") Samples.page_plain (str "example.com"))
            (Samples.form "https://example.com/"))
     = Throw (ErrorObj (MSG_FAILED_PREFIX ++ str "Navigation timeout"))
  /\ exists a,
      snd (extractUrlData
             (Samples.mkWorld (Samples.ok200 (str "<html>static</html>"))
                (Return tt) (str "<html></html>") Samples.page_plain
                (str "example.com"))
             (Samples.form "https://example.com/")) = Return a
      /\ title a = NO_TITLE /\ content a = str "plain text".
Proof.
  split; [|split].
  - apply (proj1 (extractUrlData_failure_modes _ _)). left. reflexivity.
  - destruct (proj1 (proj2 (extractUrlData_failure_modes
                              (Samples.mkWorld Samples.networkError
                                 (Throw (ErrorObj (str "Navigation timeout")))
                                 (str "<html></html>") Samples.page_plain
                                 (str "example.com"))
                              (Samples.form "https://example.com/"))
                           (str "https://example.com/") eq_refl
                           ltac:(discriminate)))
      as [H [[[_ ->] | [Hstatic _]] Hres]].
    + rewrite Hres. vm_compute. reflexivity.
    + vm_compute in Hstatic. discriminate Hstatic.
  - destruct (proj1 (proj2 (extractUrlData_failure_modes
                              (Samples.mkWorld (Samples.ok200 (str "<html>static</html>"))
                                 (Return tt) (str "<html></html>") Samples.page_plain
                                 (str "example.com"))
                              (Samples.form "https://example.com/"))
                           (str "https://example.com/") eq_refl
                           ltac:(discriminate)))
      as [H [[[Hren _] | [_ [resp [h [Hf [_ [Ht ->]]]]]]] Hres]].
    + vm_compute in Hren. discriminate Hren.
    + rewrite Hres. injection Hf as <-. injection Ht as <-.
      vm_compute. eexists. repeat split.
Defined.

(* ===================================================================== *)
(** ** The shape of normalised text *)
(* ===================================================================== *)

Section Shapes.

Lemma ws_free_starts (s : jsstring) : ws_free s -> starts_ws s = false.
Proof.
  destruct s as [|c r]; [reflexivity|]. unfold ws_free. simpl.
  rewrite andb_true_iff, negb_true_iff. tauto.
Qed.

Lemma ws_free_rev (s : jsstring) : ws_free s -> ws_free (rev s).
Proof.
  unfold ws_free. rewrite !forallb_forall. intros H c Hc.
  apply H. apply in_rev. exact Hc.
Qed.

Lemma single_spaced_app_word (w r : jsstring) :
  ws_free w -> single_spaced (w ++ r) = single_spaced r.
Proof.
  unfold ws_free. induction w as [|c w IH]; simpl; [reflexivity|].
  rewrite andb_true_iff, negb_true_iff. intros [-> Hw]. simpl. apply IH, Hw.
Qed.

Lemma starts_ws_app (a b : jsstring) :
  a <> [] -> starts_ws (a ++ b) = starts_ws a.
Proof. destruct a; [congruence | reflexivity]. Qed.

Lemma unwords_shape (ws : list jsstring) :
  Forall is_word ws ->
  single_spaced (unwords ws) = true
  /\ starts_ws (unwords ws) = false
  /\ starts_ws (rev (unwords ws)) = false
  /\ (ws <> [] -> unwords ws <> []).
Proof.
  induction ws as [|w rest IH]; intros H.
  - simpl. repeat split; congruence.
  - inversion H as [|? ? [Hne Hfree] Hrest]; subst.
    destruct (IH Hrest) as [Hs [Hst [Hend Hnonempty]]].
    change (ws_free w) in Hfree.
    rewrite unwords_cons. destruct rest as [|w' rest'].
    + repeat split.
      * rewrite <- (app_nil_r w), single_spaced_app_word by exact Hfree. reflexivity.
      * apply ws_free_starts, Hfree.
      * apply ws_free_starts, ws_free_rev, Hfree.
      * intros _. exact Hne.
    + assert (Hu : unwords (w' :: rest') <> []) by (apply Hnonempty; discriminate).
      repeat split.
      * rewrite single_spaced_app_word by exact Hfree.
        cbn [single_spaced]. rewrite isWhiteSpace_SPACE, Hst, Hs. reflexivity.
      * rewrite starts_ws_app by exact Hne. apply ws_free_starts, Hfree.
      * rewrite rev_app_distr. cbn [rev]. rewrite <- !app_assoc.
        rewrite starts_ws_app; [exact Hend|].
        intros E. apply Hu. rewrite <- (rev_involutive (unwords (w' :: rest'))), E.
        reflexivity.
      * intros _ E. destruct w; [congruence | discriminate].
Qed.

(** The result of [normalizeText] is normalised. *)
Lemma normalizeText_normal (text : jsstring) :
  ws_normal (normalizeText text) = true.
Proof.
  rewrite normalizeText_words. unfold ws_normal.
  destruct (unwords_shape (words_are_words text)) as [-> [-> [-> _]]].
  reflexivity.
Qed.

Lemma single_spaced_firstn (n : nat) :
  forall s, single_spaced s = true -> single_spaced (firstn n s) = true.
Proof.
  induction n as [|n IH]; intros s H; [reflexivity|].
  destruct s as [|c r]; [reflexivity|].
  cbn [firstn single_spaced] in *.
  apply andb_true_iff in H. destruct H as [Hc Hr].
  rewrite (IH r Hr), andb_true_r.
  destruct (isWhiteSpace c); [|reflexivity].
  apply andb_true_iff in Hc. destruct Hc as [-> Hn].
  destruct n; [reflexivity|]. destruct r; [reflexivity|]. exact Hn.
Qed.

Lemma starts_ws_firstn (n : nat) (s : jsstring) :
  starts_ws s = false -> starts_ws (firstn n s) = false.
Proof. destruct n, s; simpl; auto. Qed.

(** The result of [truncateToVarCharLimit]: at most 255 code units, single
    spaced, no whitespace in front. *)
Lemma truncate_shape (text : jsstring) :
  length (truncateToVarCharLimit text) <= 255
  /\ single_spaced (truncateToVarCharLimit text) = true
  /\ starts_ws (truncateToVarCharLimit text) = false.
Proof.
  rewrite truncate_words.
  destruct (unwords_shape (words_are_words text)) as [Hs [Hst _]].
  split; [rewrite length_firstn; lia|].
  split; [apply single_spaced_firstn, Hs | apply starts_ws_firstn, Hst].
Qed.

Lemma replace_runs_length (b : bool) (s : jsstring) :
  length (replace_runs b s) <= length s.
Proof.
  revert b. induction s as [|c r IH]; intros b; simpl; [lia|].
  destruct (isWhiteSpace c); [destruct b|]; simpl;
    [pose proof (IH true) | pose proof (IH true) | pose proof (IH false)]; lia.
Qed.

Lemma trim_length (s : jsstring) : length (trim s) <= length s.
Proof.
  unfold trim, trimEnd. rewrite length_rev.
  pose proof (trimStart_length (rev (trimStart s))) as H.
  rewrite length_rev in H. pose proof (trimStart_length s). lia.
Qed.

(** Normalising never makes a text longer. *)
Lemma normalizeText_length (text : jsstring) :
  length (normalizeText text) <= length text.
Proof.
  unfold normalizeText. destruct text as [|c r]; [simpl; lia|].
  cbn [truthy negb]. cbv iota.
  pose proof (trim_length (replace_ws_by_space (c :: r))).
  pose proof (replace_runs_length false (c :: r)).
  unfold replace_ws_by_space in *. lia.
Qed.



Lemma stripped_text_length (element : node) (limit : nat) :
  length (stripped_text element limit) <= limit.
Proof.
  unfold stripped_text, slice. rewrite or_else_empty, length_firstn. lia.
Qed.

Lemma getContent_length (d : document) : length (getContent d) <= 1000.
Proof.
  unfold getContent.
  assert (H : forall sels s, getContent_loop d sels = Some s -> length s <= 300).
  { induction sels as [|sel rest IH]; intros s; simpl; [discriminate|].
    destruct (querySelector d sel).
    - intros E. injection E as <-. apply stripped_text_length.
    - apply IH. }
  destruct (getContent_loop d contentSelectors) as [s|] eqn:E.
  - pose proof (H _ _ E). lia.
  - destruct (querySelector d [TypeSel (str "body")]).
    + apply stripped_text_length.
    + simpl. lia.
Qed.

End Shapes.

(** C1: for every input string, [truncateToVarCharLimit] is the hard cut at
    255 code units of the whitespace-normalised text, and the normalised text
    is the words of the input joined by single spaces (every run of
    whitespace, newlines included, collapsed to one space; none left at the
    ends); "a\n\n  b" becomes "a b"; a 300-character text that normalisation
    does not shorten comes out exactly 255 characters long. *)
Theorem truncateToVarCharLimit_spec (text : jsstring) :
  truncateToVarCharLimit text = slice 0 255 (normalizeText text)
  /\ normalizeText text = unwords (words text)
  /\ ws_normal (normalizeText text) = true
  /\ truncateToVarCharLimit [97; 10; 10; 32; 32; 98]%N = str "a b"
  /\ (length text = 300 ->
      length (normalizeText text) = length text ->
      length (truncateToVarCharLimit text) = 255).
Proof.
  destruct (truncate_cut_of_normalizeText text) as [E W].
  split; [exact E|]. split; [exact W|].
  split; [apply normalizeText_normal|].
  split; [reflexivity|].
  intros H300 Hsame. rewrite E. unfold slice. cbn [skipn].
  rewrite length_firstn. lia.
Qed.

Lemma truncateToVarCharLimit_spec_witness :
  length (repeat 97%N 300) = 300
  /\ length (normalizeText (repeat 97%N 300)) = length (repeat 97%N 300)
  /\ length (truncateToVarCharLimit (repeat 97%N 300)) = 255.
Proof.
  split; [reflexivity|]. split; [vm_compute; reflexivity|].
  apply (proj2 (proj2 (proj2 (proj2 (truncateToVarCharLimit_spec (repeat 97%N 300)))))).
  - reflexivity.
  - vm_compute. reflexivity.
Defined.

(* ===================================================================== *)
(** ** The returned record *)
(* ===================================================================== *)

Section Record.


Lemma getMetaContent_absent (d : document) (property : jsstring) :
  absent d (meta_selectors property) -> getMetaContent d property = [].
Proof.
  unfold getMetaContent. generalize (meta_selectors property).
  induction l as [|sel rest IH]; intros H; simpl; [reflexivity|].
  rewrite (H sel) by (left; reflexivity).
  apply IH. intros s Hs. apply H. right. exact Hs.
Qed.

Lemma absent_app_l (d : document) (a b : list selector) :
  absent d (a ++ b) -> absent d a.
Proof. intros H s Hs. apply H, in_or_app. left. exact Hs. Qed.

Lemma absent_app_r (d : document) (a b : list selector) :
  absent d (a ++ b) -> absent d b.
Proof. intros H s Hs. apply H, in_or_app. right. exact Hs. Qed.





Lemma siteName_raw_absent (w : World) (d : document) (u : jsstring) :
  absent d siteName_sources -> siteName_raw w d u = URL_hostname w u.
Proof.
  unfold siteName_sources, siteName_raw, titleText. intros H.
  rewrite (getMetaContent_absent (absent_app_l _ _ H)).
  apply absent_app_r in H.
  rewrite (getMetaContent_absent (absent_app_l _ _ H)).
  apply absent_app_r in H.
  rewrite (H [TypeSel (str "title")]) by (left; reflexivity).
  reflexivity.
Qed.

End Record.

Ltac sources_absent :=
  let s := fresh "s" in
  let Hs := fresh "Hs" in
  unfold absent; intros s Hs; cbv in Hs;
  repeat (destruct Hs as [<- | Hs]; [vm_compute; reflexivity|]);
  contradiction.


Section ParsedDocument.




End ParsedDocument.






(* ===================================================================== *)
(** ** Sample runs *)
(* ===================================================================== *)

(** A static article page: no browser, the excerpt without the script. *)
Example run_static_article :
  extractUrlData
    (Samples.mkWorld (Samples.ok200 (str "<html>...</html>")) (Return tt)
       (str "<html></html>") Samples.page_article (str "blog.example"))
    (Samples.form "https://blog.example/post")
  = ([SetTimeout 10000; Fetch (str "https://blog.example/post") USER_AGENT;
      ClearTimeout; ResponseText],
     Return {| url := str "https://blog.example/post";
               siteName := str "Site";
               title := str "Post | Site";
               description := [];
               publishedAt := Samples.NOW;
               thumbnail := [];
               content := str "Hello world";
               isLiked := None;
               isArchived := None |}).
Proof. vm_compute. reflexivity. Qed.

(** A 404 on the static fetch, then a navigation that times out: the
    browser is closed and the one generic error comes out. *)
Example run_not_found_then_timeout :
  extractUrlData
    (Samples.mkWorld Samples.notFound (Throw (ErrorObj (str "Navigation timeout")))
       (str "<html></html>") Samples.page_plain (str "example.com"))
    (Samples.form "https://example.com/gone")
  = ([SetTimeout 10000; Fetch (str "https://example.com/gone") USER_AGENT;
      ClearTimeout; ConsoleLog (ErrorObj (str "HTTP 404: Not Found"));
      Launch; NewPage; SetUserAgent USER_AGENT;
      Goto (str "https://example.com/gone") 30000; BrowserClose;
      ConsoleError (ErrorObj (str "Navigation timeout"))],
     Throw (ErrorObj (MSG_FAILED_PREFIX ++ str "Navigation timeout"))).
Proof. vm_compute. reflexivity. Qed.

(** A marker in the static HTML sends the page to the renderer. *)
Example run_marker :
  fst (extractUrlData
         (Samples.mkWorld
            (Samples.ok200 (str "<div id=" ++ QUOTE :: str "root" ++ QUOTE :: str "></div>"))
            (Return tt) (str "<html></html>") Samples.page_plain (str "example.com"))
         (Samples.form "https://example.com/app"))
  = [SetTimeout 10000; Fetch (str "https://example.com/app") USER_AGENT;
     ClearTimeout; ResponseText; Launch; NewPage; SetUserAgent USER_AGENT;
     Goto (str "https://example.com/app") 30000; Sleep 2000; PageContent;
     BrowserClose].
Proof. vm_compute. reflexivity. Qed.

(** The earlier revision stores the same long title uncut. *)
Example earlier_title_uncut :
  match Earlier.articleData
          (Samples.mkWorld (Samples.ok200 (str "<html></html>")) (Return tt)
             (str "<html></html>") Samples.page_long (str "example.com"))
          Samples.page_long (str "https://example.com/long") with
  | Return a => length (title a) = 256
  | Throw _ => False
  end.
Proof. vm_compute. reflexivity. Qed.

Example isWhiteSpace_samples :
  map isWhiteSpace [9; 10; 13; 14; 32; 97; 160; 8200; 8203; 12288; 65279]%N
  = [true; true; true; false; true; false; true; true; false; true; true].
Proof. reflexivity. Qed.

Example split_title :
  split (str " | ") (str "Post | Site | x") = [str "Post"; str "Site"; str "x"].
Proof. reflexivity. Qed.

Example words_of_text :
  words [97; 10; 10; 32; 32; 98]%N = [[97]; [98]]%N.
Proof. reflexivity. Qed.

(* ===================================================================== *)
(** ** Further properties of the two normalising helpers *)
(* ===================================================================== *)

Section NormalisationMore.

Lemma replace_single_spaced (s : jsstring) :
  single_spaced s = true -> replace_ws_by_space s = s.
Proof.
  unfold replace_ws_by_space.
  induction s as [|c r IH]; [reflexivity|].
  cbn [single_spaced replace_runs]. intros H.
  apply andb_true_iff in H. destruct H as [Hc Hr].
  destruct (isWhiteSpace c).
  - apply andb_true_iff in Hc. destruct Hc as [Hc Hn].
    apply N.eqb_eq in Hc. apply negb_true_iff in Hn. subst c.
    rewrite replace_runs_true, (trimStart_id _ Hn), (IH Hr). reflexivity.
  - rewrite (IH Hr). reflexivity.
Qed.

Lemma trimEnd_id (s : jsstring) : starts_ws (rev s) = false -> trimEnd s = s.
Proof.
  intros H. unfold trimEnd. rewrite (trimStart_id _ H). apply rev_involutive.
Qed.

Lemma trimEnd_length (s : jsstring) : length (trimEnd s) <= length s.
Proof.
  unfold trimEnd. rewrite length_rev.
  pose proof (trimStart_length (rev s)) as H. rewrite length_rev in H. exact H.
Qed.

(** On a single-spaced text with nothing in front, normalising only trims
    the end. *)
Lemma normalizeText_trimEnd (s : jsstring) :
  single_spaced s = true -> starts_ws s = false -> normalizeText s = trimEnd s.
Proof.
  intros Hs Hst. unfold normalizeText. destruct s as [|c r]; [reflexivity|].
  cbn [truthy negb]. cbv iota.
  rewrite (replace_single_spaced _ Hs). unfold trim.
  rewrite (trimStart_id _ Hst). reflexivity.
Qed.

Lemma filter_replace_runs (b : bool) (s : jsstring) :
  filter non_ws (replace_runs b s) = filter non_ws s.
Proof.
  revert b. induction s as [|c r IH]; intros b; [reflexivity|].
  cbn [replace_runs filter]. unfold non_ws at 2.
  destruct (isWhiteSpace c) eqn:E; cbn [negb].
  - destruct b; [apply IH|]. cbn [filter]. unfold non_ws at 1.
    rewrite isWhiteSpace_SPACE. cbn [negb]. apply IH.
  - cbn [filter]. unfold non_ws at 1. rewrite E. cbn [negb]. rewrite IH. reflexivity.
Qed.

Lemma filter_trimStart (s : jsstring) :
  filter non_ws (trimStart s) = filter non_ws s.
Proof.
  induction s as [|c r IH]; [reflexivity|].
  cbn [trimStart filter]. unfold non_ws at 2.
  destruct (isWhiteSpace c) eqn:E; cbn [negb]; [exact IH|].
  cbn [filter]. unfold non_ws at 1. rewrite E. reflexivity.
Qed.

Lemma filter_trim (s : jsstring) : filter non_ws (trim s) = filter non_ws s.
Proof.
  unfold trim, trimEnd.
  rewrite filter_rev, filter_trimStart, filter_rev, rev_involutive.
  apply filter_trimStart.
Qed.

Lemma filter_normalizeText (text : jsstring) :
  filter non_ws (normalizeText text) = filter non_ws text.
Proof.
  unfold normalizeText. destruct text as [|c r]; [reflexivity|].
  cbn [truthy negb]. cbv iota.
  rewrite filter_trim. apply filter_replace_runs.
Qed.

Lemma words_all_ws (s : jsstring) :
  words s = [] <-> forallb isWhiteSpace s = true.
Proof.
  unfold words. induction s as [|c r IH]; [simpl; tauto|].
  cbn [tokens forallb]. destruct (isWhiteSpace c) eqn:E; cbn [andb].
  - exact IH.
  - split; [|discriminate].
    destruct r as [|d r']; [discriminate|].
    destruct (isWhiteSpace d); [discriminate|].
    destruct (tokens isWhiteSpace (d :: r')); discriminate.
Qed.

End NormalisationMore.

(** X1: the texts [normalizeText] leaves unchanged are exactly the
    normalised ones (single spaces only, none at either end); so normalising
    twice is normalising once. *)
Theorem normalizeText_fixed_points (s : jsstring) :
  (normalizeText s = s <-> ws_normal s = true)
  /\ normalizeText (normalizeText s) = normalizeText s.
Proof.
  assert (Hfix : forall t, ws_normal t = true -> normalizeText t = t).
  { intros t H. unfold ws_normal in H.
    apply andb_true_iff in H. destruct H as [H He].
    apply andb_true_iff in H. destruct H as [Hs Hst].
    apply negb_true_iff in He. apply negb_true_iff in Hst.
    rewrite (normalizeText_trimEnd _ Hs Hst). apply trimEnd_id, He. }
  split.
  - split; [|apply Hfix].
    intros H. rewrite <- H. apply normalizeText_normal.
  - apply Hfix, normalizeText_normal.
Qed.

(** X2: [truncateToVarCharLimit] is not idempotent: applied to its own
    result it trims the end once more, which removes the space the cut at
    255 may have left there, and changes nothing else. *)
Theorem truncate_twice (text : jsstring) :
  truncateToVarCharLimit (truncateToVarCharLimit text)
  = trimEnd (truncateToVarCharLimit text)
  /\ length (truncateToVarCharLimit text) - 1
     <= length (truncateToVarCharLimit (truncateToVarCharLimit text))
  /\ truncateToVarCharLimit
       (truncateToVarCharLimit (repeat 97%N 254 ++ str " b"))
     <> truncateToVarCharLimit (repeat 97%N 254 ++ str " b").
Proof.
  destruct (truncate_shape text) as [Hlen [Hs Hst]].
  assert (E : truncateToVarCharLimit (truncateToVarCharLimit text)
              = trimEnd (truncateToVarCharLimit text)).
  { rewrite (proj1 (truncate_cut_of_normalizeText (truncateToVarCharLimit text))).
    rewrite (normalizeText_trimEnd _ Hs Hst).
    unfold slice. cbn [skipn]. apply firstn_all2.
    pose proof (trimEnd_length (truncateToVarCharLimit text)). lia. }
  split; [exact E|]. split.
  - rewrite E. generalize (truncateToVarCharLimit text) Hs. intros s Hss.
    destruct (rev s) as [|c r] eqn:Hr.
    + assert (s = []) as -> by (rewrite <- (rev_involutive s), Hr; reflexivity).
      simpl. lia.
    + assert (Hs' : s = rev r ++ [c]) by (rewrite <- (rev_involutive s), Hr; reflexivity).
      unfold trimEnd. rewrite Hr. cbn [trimStart].
      destruct (isWhiteSpace c) eqn:Ec.
      * (* one trailing space: the code unit before it is not whitespace *)
        assert (Hn : starts_ws r = false).
        { subst s. clear - Hss Ec.
          destruct r as [|d r']; [reflexivity|]. cbn [starts_ws].
          destruct (isWhiteSpace d) eqn:Ed; [|reflexivity]. exfalso.
          cbn [rev] in Hss. rewrite <- app_assoc in Hss. cbn [app] in Hss.
          induction (rev r') as [|x l IHl]; cbn [app single_spaced] in Hss.
          - rewrite Ed in Hss. cbn [starts_ws] in Hss. rewrite Ec in Hss.
            rewrite andb_false_r in Hss. discriminate.
          - apply andb_true_iff in Hss. apply IHl, Hss. }
        rewrite (trimStart_id _ Hn), length_rev, Hs', length_app, length_rev.
        simpl. lia.
      * rewrite length_rev, Hs', length_app, length_rev. simpl. lia.
  - vm_compute. intros X. discriminate X.
Qed.

(** X3: normalising keeps every non-whitespace code unit, in order, and
    never lengthens the text; the cut keeps a prefix of them and at most
    255 code units. *)
Theorem normalisation_keeps_text (text : jsstring) :
  filter non_ws (normalizeText text) = filter non_ws text
  /\ length (normalizeText text) <= length text
  /\ (exists rest,
         filter non_ws text = filter non_ws (truncateToVarCharLimit text) ++ rest)
  /\ length (truncateToVarCharLimit text) <= Nat.min 255 (length text).
Proof.
  split; [apply filter_normalizeText|].
  split; [apply normalizeText_length|].
  destruct (truncate_cut_of_normalizeText text) as [E _].
  unfold slice in E. cbn [skipn Nat.sub] in E.
  split.
  - exists (filter non_ws (skipn 255 (normalizeText text))).
    rewrite E, <- filter_app, firstn_skipn. symmetry. apply filter_normalizeText.
  - rewrite E, length_firstn.
    pose proof (normalizeText_length text). lia.
Qed.

(** X4: the result of either helper is the empty string exactly when the
    input holds nothing but whitespace (the empty input included). *)
Theorem empty_result_iff_blank (text : jsstring) :
  (normalizeText text = [] <-> forallb isWhiteSpace text = true)
  /\ (truncateToVarCharLimit text = [] <-> forallb isWhiteSpace text = true).
Proof.
  assert (Hn : normalizeText text = [] <-> forallb isWhiteSpace text = true).
  { rewrite normalizeText_words, <- words_all_ws. split.
    - apply unwords_nil_inv, words_are_words.
    - intros ->. reflexivity. }
  split; [exact Hn|].
  rewrite <- Hn, (proj1 (truncate_cut_of_normalizeText text)).
  unfold slice. cbn [skipn Nat.sub].
  destruct (normalizeText text); simpl; split; congruence.
Qed.

(* ===================================================================== *)
(** ** Further properties of the heuristic and of the renderer *)
(* ===================================================================== *)

(** X5: [checkIfJavaScriptRequired] throws exactly the error of the URL
    parser when the URL does not parse; otherwise it answers true exactly
    when the hostname contains an allow-listed domain or the HTML contains a
    framework marker, anywhere and as plain text. *)
Theorem checkIfJavaScriptRequired_iff (w : World) (h u : jsstring) :
  (forall e, URL_hostname w u = Throw e ->
             checkIfJavaScriptRequired w h u = Throw e)
  /\ (forall host, URL_hostname w u = Return host ->
        exists b,
          checkIfJavaScriptRequired w h u = Return b
          /\ (b = true <->
              (exists d, In d jsRequiredDomains /\ substring d host)
              \/ (exists m, In m jsIndicators /\ substring m h))).
Proof.
  unfold checkIfJavaScriptRequired. split.
  - intros e ->. reflexivity.
  - intros host ->.
    destruct (existsb (fun domain => includes host domain) jsRequiredDomains) eqn:Ed.
    + exists true. split; [reflexivity|]. split; [|reflexivity]. intros _.
      left. apply existsb_exists in Ed. destruct Ed as [d [Hin Hd]].
      exists d. split; [exact Hin | apply includes_spec, Hd].
    + eexists. split; [reflexivity|]. split.
      * intros Hm. right. apply existsb_exists in Hm. destruct Hm as [m [Hin Hm]].
        exists m. split; [exact Hin | apply includes_spec, Hm].
      * intros [[d [Hin Hd]] | [m [Hin Hm]]].
        -- exfalso. apply includes_spec in Hd.
           assert (X : existsb (fun domain => includes host domain) jsRequiredDomains = true)
             by (apply existsb_exists; eauto).
           congruence.
        -- apply existsb_exists. exists m. split; [exact Hin | apply includes_spec, Hm].
Qed.

Lemma checkIfJavaScriptRequired_iff_witness :
  checkIfJavaScriptRequired
    (Samples.mkWorld (Samples.ok200 []) (Return tt) [] Samples.page_plain
       (str "example.com"))
    (str "<script>window.__NUXT__={}</script>") (str "https://example.com/")
  = Return true.
Proof.
  destruct (proj2 (checkIfJavaScriptRequired_iff
                     (Samples.mkWorld (Samples.ok200 []) (Return tt) []
                        Samples.page_plain (str "example.com"))
                     (str "<script>window.__NUXT__={}</script>")
                     (str "https://example.com/"))
              (str "example.com") eq_refl) as [b [Hb Hiff]].
  rewrite Hb. f_equal. apply Hiff. right.
  exists (str "__NUXT__"). split.
  - do 4 right. left. reflexivity.
  - exists (str "<script>window."), (str "={}</script>"). reflexivity.
Defined.

(** X6: when [puppeteer.launch] fails there is no browser to close:
    [fetchWithPuppeteer] makes no other call, [browser.close()] included, and
    lets the launch error out. *)
Theorem fetchWithPuppeteer_launch_fails
  (w : World) (u : jsstring) (tr : list event) (e : thrown) :
  launch w = Throw e ->
  fetchWithPuppeteer w u (tr, None) = ((tr ++ [Launch], None), Throw e).
Proof.
  intros H. exec; congruence.
Qed.

Lemma fetchWithPuppeteer_launch_fails_witness :
  fetchWithPuppeteer
    {| fetch := fun _ => Samples.networkError;
       launch := Throw (ErrorObj (str "Failed to launch the browser process"));
       newPage := Return tt; setUserAgent := Return tt;
       goto := fun _ => Return tt; page_content := Return [];
       close := Return tt;
       JSDOM := fun _ => Return Samples.page_plain;
       URL_hostname := fun _ => Return (str "example.com");
       Date_toISOString := Samples.NOW |}
    (str "https://example.com/") ([], None)
  = (([] ++ [Launch], None),
     Throw (ErrorObj (str "Failed to launch the browser process"))).
Proof.
  apply fetchWithPuppeteer_launch_fails. reflexivity.
Defined.

(** X7: an error of [browser.close()] in the [finally] block replaces the
    result: the rendered HTML of a successful run is lost, and so is the
    error of a failed one. *)
Theorem fetchWithPuppeteer_close_fails
  (w : World) (u : jsstring) (tr : list event) (e : thrown) :
  launch w = Return tt -> close w = Throw e ->
  snd (fetchWithPuppeteer w u (tr, None)) = Throw e.
Proof.
  intros Hl Hc. exec; congruence.
Qed.

Lemma fetchWithPuppeteer_close_fails_witness :
  snd (fetchWithPuppeteer
         {| fetch := fun _ => Samples.networkError;
            launch := Return tt;
            newPage := Return tt; setUserAgent := Return tt;
            goto := fun _ => Return tt;
            page_content := Return (str "<html>rendered</html>");
            close := Throw (ErrorObj (str "Protocol error"));
            JSDOM := fun _ => Return Samples.page_plain;
            URL_hostname := fun _ => Return (str "example.com");
            Date_toISOString := Samples.NOW |}
         (str "https://example.com/") ([], None))
  = Throw (ErrorObj (str "Protocol error")).
Proof.
  apply fetchWithPuppeteer_close_fails; reflexivity.
Defined.

(** X8: [fetchWithPuppeteer] returns HTML exactly when every browser call
    succeeds, and then it returns what [page.content()] gave, after the calls
    launch, newPage, setUserAgent, goto (30 s), the 2 s delay, content and
    close, in this order. *)
Theorem fetchWithPuppeteer_returns
  (w : World) (u : jsstring) (tr : list event) (h : jsstring) :
  snd (fetchWithPuppeteer w u (tr, None)) = Return h
  <-> (launch w = Return tt /\ newPage w = Return tt
       /\ setUserAgent w = Return tt /\ goto w u = Return tt
       /\ page_content w = Return h /\ close w = Return tt
       /\ fst (fst (fetchWithPuppeteer w u (tr, None)))
          = tr ++ [Launch; NewPage; SetUserAgent USER_AGENT; Goto u 30000;
                   Sleep 2000; PageContent; BrowserClose]).
Proof.
  split.
  - exec; intros E; try discriminate.
    injection E as ->. rewrite <- !app_assoc. repeat split.
  - intros (H1 & H2 & H3 & H4 & H5 & H6 & _). exec; congruence.
Qed.

(* ===================================================================== *)
(** ** Further properties of the two extraction helpers *)
(* ===================================================================== *)

Section HelpersMore.

Lemma getMetaContent_loop_first (d : document) (pre : list selector) :
  forall sel post element,
    absent d pre ->
    querySelector d sel = Some element ->
    getMetaContent_loop d (pre ++ sel :: post)
    = opt_or_else (getAttribute (str "content") element) [].
Proof.
  induction pre as [|p pre IH]; intros sel post element Hpre Hsel; simpl.
  - rewrite Hsel. reflexivity.
  - rewrite (Hpre p) by (left; reflexivity).
    apply IH; [|exact Hsel]. intros s Hs. apply Hpre. right. exact Hs.
Qed.

Lemma descendants_prune (bad : head_pred) (n c : node) :
  In c (descendants (prune bad n)) -> on_element bad c = false.
Proof.
  revert c. induction n as [t|t|i name attrs cs IH] using node_ind_nested;
    intros c Hc; try contradiction.
  cbn [prune descendants] in Hc. apply in_flat_map in Hc.
  destruct Hc as [x' [Hx' Hc]]. apply filter_In in Hx'.
  destruct Hx' as [Hx' Hkeep]. apply in_map_iff in Hx'.
  destruct Hx' as [x [<- Hx]]. apply negb_true_iff in Hkeep.
  rewrite Forall_forall in IH.
  destruct (prune bad x) as [t|t|j nm at' xs] eqn:Ex; try contradiction.
  cbn [subtree_elements] in Hc. destruct Hc as [<- | Hc]; [exact Hkeep|].
  apply (IH x Hx). rewrite Ex. exact Hc.
Qed.

Lemma prune_id (bad : head_pred) (n : node) :
  (forall c, In c (descendants n) -> on_element bad c = false) ->
  prune bad n = n.
Proof.
  intros H. rewrite <- (prune_none n) at 2.
  apply prune_ext_in. intros c Hc. rewrite (H c Hc). destruct c; reflexivity.
Qed.

Lemma starts_ws_trimEnd (s : jsstring) :
  starts_ws s = false -> starts_ws (trimEnd s) = false.
Proof.
  destruct s as [|c r]; [reflexivity|]. cbn [starts_ws]. intros Hc.
  rewrite trimEnd_cons. destruct (trimEnd r); rewrite ?Hc; cbn [starts_ws]; auto.
Qed.

Lemma starts_ws_trim (s : jsstring) : starts_ws (trim s) = false.
Proof. apply starts_ws_trimEnd, trimStart_starts. Qed.

Lemma trimStart_blank (s : jsstring) :
  forallb isWhiteSpace s = true -> trimStart s = [].
Proof.
  induction s as [|c r IH]; [reflexivity|]. cbn [forallb trimStart].
  intros H. apply andb_true_iff in H. destruct H as [-> Hr]. apply IH, Hr.
Qed.

Lemma stripped_text_starts (element : node) (limit : nat) :
  starts_ws (stripped_text element limit) = false.
Proof.
  unfold stripped_text, slice. rewrite or_else_empty. cbn [skipn].
  apply starts_ws_firstn, starts_ws_trim.
Qed.

End HelpersMore.

(** X9: [getMetaContent] is decided by the first selector variant that
    matches an element: its [content] attribute is the result, the empty
    string when the attribute is missing or empty, and the later variants
    are not looked at. *)
Theorem getMetaContent_first_match
  (d : document) (property : jsstring) (pre : list selector) (sel : selector)
  (post : list selector) (element : node) :
  meta_selectors property = pre ++ sel :: post ->
  absent d pre ->
  querySelector d sel = Some element ->
  getMetaContent d property = opt_or_else (getAttribute (str "content") element) []
  /\ (getAttribute (str "content") element = None
      \/ getAttribute (str "content") element = Some [] ->
      getMetaContent d property = []).
Proof.
  intros Hsplit Hpre Hsel.
  assert (E : getMetaContent d property
              = opt_or_else (getAttribute (str "content") element) []).
  { unfold getMetaContent. rewrite Hsplit.
    apply getMetaContent_loop_first; assumption. }
  split; [exact E|].
  intros [H | H]; rewrite E, H; reflexivity.
Qed.

Lemma getMetaContent_first_match_witness :
  getMetaContent Samples.page_twitter (str "title") = [].
Proof.
  apply (@getMetaContent_first_match Samples.page_twitter (str "title")
           [] [MetaAttrSel (str "property") (str "title")] _
           (Samples.meta 3 (str "title") []) eq_refl).
  - intros s Hs. contradiction.
  - reflexivity.
  - right. reflexivity.
Defined.

(** X10: an empty [title] meta hides the Twitter-card title: when the
    first element matching [meta[property="title"]] has no content and the
    document has no [og:title] variant, the title comes from the first [h1],
    then the page title, then the placeholder, whatever a [twitter:title]
    meta says. *)
Theorem empty_title_meta_hides_twitter_card (d : document) (element : node) :
  querySelector d [MetaAttrSel (str "property") (str "title")] = Some element ->
  (getAttribute (str "content") element = None
   \/ getAttribute (str "content") element = Some []) ->
  absent d (meta_selectors (str "og:title")) ->
  title_raw d
  = opt_or_else (option_map textContent (querySelector d [TypeSel (str "h1")]))
      (opt_or_else (titleText d) NO_TITLE).
Proof.
  intros Hsel Hempty Hog. unfold title_raw.
  assert (E : getMetaContent d (str "title") = []).
  { unfold getMetaContent.
    change (meta_selectors (str "title"))
      with ([] ++ [MetaAttrSel (str "property") (str "title")]
               :: tl (meta_selectors (str "title"))).
    rewrite (@getMetaContent_loop_first d [] _ _ element) by
      (try exact Hsel; intros s Hs; contradiction).
    destruct Hempty as [-> | ->]; reflexivity. }
  rewrite E, (getMetaContent_absent Hog). reflexivity.
Qed.

Lemma empty_title_meta_hides_twitter_card_witness :
  title_raw Samples.page_twitter = str "Heading".
Proof.
  rewrite (@empty_title_meta_hides_twitter_card Samples.page_twitter
             (Samples.meta 3 (str "title") []) eq_refl (or_intror eq_refl)).
  - vm_compute. reflexivity.
  - sources_absent.
Defined.

(** X11: the excerpt [getContent] returns never starts with whitespace and
    has at most 1000 code units, at most 300 when a container selector
    matches. *)
Theorem getContent_bounds (d : document) :
  length (getContent d) <= 1000
  /\ starts_ws (getContent d) = false
  /\ (forall sel element,
         In sel contentSelectors -> querySelector d sel = Some element ->
         length (getContent d) <= 300).
Proof.
  split; [apply getContent_length|].
  assert (Hloop : forall sels s,
             getContent_loop d sels = Some s ->
             length s <= 300 /\ starts_ws s = false).
  { induction sels as [|sel rest IH]; intros s; simpl; [discriminate|].
    destruct (querySelector d sel).
    - intros E. injection E as <-.
      split; [apply stripped_text_length | apply stripped_text_starts].
    - apply IH. }
  split.
  - unfold getContent.
    destruct (getContent_loop d contentSelectors) as [s|] eqn:E.
    + apply (Hloop _ _ E).
    + destruct (querySelector d [TypeSel (str "body")]);
        [apply stripped_text_starts | reflexivity].
  - intros sel element Hin Hsel. unfold getContent.
    destruct (getContent_loop d contentSelectors) as [s|] eqn:E.
    + apply (Hloop _ _ E).
    + exfalso. revert E Hin. generalize contentSelectors.
      induction l as [|p l IHl]; intros E Hin; [contradiction|].
      simpl in E. destruct Hin as [-> | Hin].
      * rewrite Hsel in E. discriminate.
      * destruct (querySelector d p); [discriminate | exact (IHl E Hin)].
Qed.

Lemma getContent_bounds_witness :
  length (getContent Samples.page_article) <= 300.
Proof.
  apply (proj2 (proj2 (getContent_bounds Samples.page_article))
           [TypeSel (str "article")]
           (Samples.el 6 "article"
              [Text (str " Hello "); Samples.el 7 "script" [Text (str "x()")];
               Text (str "world ")])).
  - left. reflexivity.
  - reflexivity.
Defined.

(** X12: after [querySelectorAll(...).forEach((el) => el.remove())] no
    script, style, nav, header, footer or aside element is left anywhere
    below the element, and an element that had none below it is unchanged. *)
Theorem stripping_removes_all_noise (element : node) :
  distinct_ids element ->
  (forall c i name attrs cs,
      In c (descendants
              (forEach_remove (querySelectorAll element noiseSelector) element)) ->
      c = Element i name attrs cs -> ~ In name noiseTags)
  /\ ((forall c, In c (descendants element) ->
                 on_element (matches noiseSelector) c = false) ->
      forEach_remove (querySelectorAll element noiseSelector) element = element).
Proof.
  intros Hids. rewrite (forEach_remove_querySelectorAll noiseSelector Hids).
  split.
  - intros c i name attrs cs Hc -> Hin.
    apply descendants_prune in Hc. cbn [on_element] in Hc.
    apply (matches_noiseSelector i name attrs) in Hin. congruence.
  - apply prune_id.
Qed.

Lemma stripping_removes_all_noise_witness :
  forEach_remove
    (querySelectorAll (Samples.el 4 "p" [Text (str "plain text")]) noiseSelector)
    (Samples.el 4 "p" [Text (str "plain text")])
  = Samples.el 4 "p" [Text (str "plain text")].
Proof.
  apply (proj2 (@stripping_removes_all_noise
                  (Samples.el 4 "p" [Text (str "plain text")])
                  ltac:(ids_distinct))).
  intros c Hc. contradiction.
Defined.

(** X13: a container that matches decides the excerpt even when it holds
    no text: if the text left in the first matching container is blank, the
    excerpt is the empty string and the body fallback is not used. *)
Theorem blank_container_gives_empty_excerpt
  (d : document) (pre : list selector) (sel : selector) (post : list selector)
  (element : node) :
  contentSelectors = pre ++ sel :: post ->
  absent d pre ->
  querySelector d sel = Some element ->
  distinct_ids element ->
  forallb isWhiteSpace (textContent (prune (matches noiseSelector) element)) = true ->
  getContent d = [].
Proof.
  intros Hsplit Hpre Hsel Hids Hblank.
  unfold getContent. rewrite Hsplit.
  rewrite (getContent_loop_first d pre sel post Hpre Hsel).
  rewrite (stripped_text_prune 300 Hids).
  unfold trim. rewrite (trimStart_blank _ Hblank). reflexivity.
Qed.

Lemma blank_container_gives_empty_excerpt_witness :
  getContent Samples.page_empty_article = [].
Proof.
  apply (@blank_container_gives_empty_excerpt Samples.page_empty_article
           [] [TypeSel (str "article")] _
           (Samples.el 4 "article"
              [Text (str "  "); Samples.el 5 "script" [Text (str "x()")]])
           eq_refl).
  - intros s Hs. contradiction.
  - reflexivity.
  - ids_distinct.
  - vm_compute. reflexivity.
Defined.

(* ===================================================================== *)
(** ** Further properties of the whole action *)
(* ===================================================================== *)

Section ActionMore.

Lemma check_throw (w : World) (h u : jsstring) (e : thrown) :
  URL_hostname w u = Throw e -> checkIfJavaScriptRequired w h u = Throw e.
Proof. unfold checkIfJavaScriptRequired. intros ->. reflexivity. Qed.

End ActionMore.

(** X14: one call makes at most one fetch and launches at most one
    browser; with a URL given, the first two events are the arming of the
    10 s abort timer and the fetch of that URL with the fixed user agent, and
    the fetch is never repeated. *)
Theorem action_fetches_once (w : World) (fd : FormData) :
  count is_fetch (fst (extractUrlData w fd)) <= 1
  /\ count is_launch (fst (extractUrlData w fd)) <= 1
  /\ (forall u, FormData_get (str "url") fd = Some u -> u <> [] ->
        exists rest,
          fst (extractUrlData w fd)
          = SetTimeout 10000 :: Fetch u USER_AGENT :: rest
          /\ count is_fetch rest = 0).
Proof.
  unfold extractUrlData, extractUrlData_M.
  destruct (FormData_get (str "url") fd) as [[|c u]|] eqn:Hget.
  1,3: cbn; repeat split; try lia; intros u' E; try discriminate;
       injection E as <-; congruence.
  exec.
  all: repeat split; [cbn; lia | cbn; lia |].
  all: intros u' E Hu; injection E as <-.
  all: match goal with
       | |- exists rest, _ :: _ :: ?l = _ /\ _ => exists l; split; reflexivity
       end.
Qed.

Lemma action_fetches_once_witness :
  exists rest,
    fst (extractUrlData
           (Samples.mkWorld Samples.notFound (Return tt)
              (str "<html></html>") Samples.page_plain (str "example.com"))
           (Samples.form "https://example.com/gone"))
    = SetTimeout 10000 :: Fetch (str "https://example.com/gone") USER_AGENT :: rest
    /\ count is_fetch rest = 0.
Proof.
  apply (proj2 (proj2 (action_fetches_once
                         (Samples.mkWorld Samples.notFound (Return tt)
                            (str "<html></html>") Samples.page_plain
                            (str "example.com"))
                         (Samples.form "https://example.com/gone")))).
  - reflexivity.
  - discriminate.
Defined.

(** X15: the action never leaves a browser it launched: in every call in
    which the launch succeeds, [browser.close()] is called as often as
    [puppeteer.launch], whether the call returns a record or throws; when the
    launch fails, [close] is not called at all. *)
Theorem action_closes_browser (w : World) (fd : FormData) :
  (launch w = Return tt ->
   count is_close (fst (extractUrlData w fd))
   = count is_launch (fst (extractUrlData w fd)))
  /\ (forall e, launch w = Throw e ->
                count is_close (fst (extractUrlData w fd)) = 0).
Proof.
  unfold extractUrlData, extractUrlData_M.
  destruct (FormData_get (str "url") fd) as [[|c u]|] eqn:Hget.
  1,3: cbn; split; reflexivity.
  split.
  - intros Hl. exec; try congruence; reflexivity.
  - intros e Hl. exec; try congruence; reflexivity.
Qed.

Lemma action_closes_browser_witness :
  count is_close
    (fst (extractUrlData
            (Samples.mkWorld Samples.networkError
               (Throw (ErrorObj (str "Navigation timeout")))
               (str "<html></html>") Samples.page_plain (str "example.com"))
            (Samples.form "https://example.com/")))
  = count is_launch
      (fst (extractUrlData
              (Samples.mkWorld Samples.networkError
                 (Throw (ErrorObj (str "Navigation timeout")))
                 (str "<html></html>") Samples.page_plain (str "example.com"))
              (Samples.form "https://example.com/"))).
Proof.
  apply (proj1 (action_closes_browser _ _)). reflexivity.
Defined.

(** X16: the static stage falls back to the renderer on its later
    failures too: when the fetch returns a 2xx response but reading the body
    throws, or the URL parser throws inside the heuristic, the error is
    logged and the browser launch is the next event. *)
Theorem static_stage_error_falls_back
  (w : World) (fd : FormData) (u : jsstring) (resp : Response) (e : thrown) :
  FormData_get (str "url") fd = Some u -> u <> [] ->
  fetch w u = Return resp -> ok resp = true ->
  (text resp = Throw e
   \/ (exists h, text resp = Return h /\ URL_hostname w u = Throw e)) ->
  exists post,
    fst (extractUrlData w fd)
    = [SetTimeout 10000; Fetch u USER_AGENT; ClearTimeout; ResponseText;
       ConsoleLog e] ++ Launch :: post.
Proof.
  intros Hget Hu Hf Hok Hfail.
  assert (Hc : (exists h, text resp = Return h /\ URL_hostname w u = Throw e) ->
               forall h', checkIfJavaScriptRequired w h' u = Throw e).
  { intros [h [_ Hh]] h'. exact (check_throw w h' u Hh). }
  start_call Hget Hu.
  destruct Hfail as [Ht | Hh]; [clear Hc | specialize (Hc Hh); destruct Hh as [h [Ht Hh]]];
    exec; rewrite ?Hc in *; try congruence.
  all: match goal with
       | |- exists post,
           _ :: _ :: _ :: _ :: ConsoleLog ?x :: Launch :: ?l
           = _ :: _ :: _ :: _ :: ConsoleLog ?y :: Launch :: _ =>
           exists l; assert (x = y) as -> by congruence; reflexivity
       end.
Qed.

Lemma static_stage_error_falls_back_witness :
  exists post,
    fst (extractUrlData
           (Samples.mkWorld
              (Return {| status := 200; statusText := str "OK";
                         text := Throw (ErrorObj (str "terminated")) |})
              (Return tt) (str "<html></html>") Samples.page_plain
              (str "example.com"))
           (Samples.form "https://example.com/"))
    = [SetTimeout 10000; Fetch (str "https://example.com/") USER_AGENT;
       ClearTimeout; ResponseText; ConsoleLog (ErrorObj (str "terminated"))]
        ++ Launch :: post.
Proof.
  apply (@static_stage_error_falls_back _ _ (str "https://example.com/")
           {| status := 200; statusText := str "OK";
              text := Throw (ErrorObj (str "terminated")) |}).
  - reflexivity.
  - discriminate.
  - reflexivity.
  - reflexivity.
  - left. reflexivity.
Defined.

(** X17: the record is built from one HTML only.  When the renderer ran,
    it is the rendered page and the static body is discarded; when it did
    not run, it is the body of the static response. *)
Theorem record_source (w : World) (fd : FormData) (tr : list event)
  (a : ArticleData) :
  extractUrlData w fd = (tr, Return a) ->
  exists u h d,
    FormData_get (str "url") fd = Some u
    /\ JSDOM w h = Return d
    /\ articleData w d u = Return a
    /\ (rendererInvoked tr = true -> page_content w = Return h)
    /\ (rendererInvoked tr = false ->
        exists resp, fetch w u = Return resp /\ ok resp = true
                     /\ text resp = Return h).
Proof.
  unfold extractUrlData, extractUrlData_M.
  destruct (FormData_get (str "url") fd) as [[|c u]|] eqn:Hget;
    try (cbn; discriminate).
  exec; intros E; try discriminate.
  all: injection E as <- <-.
  all: do 3 eexists.
  all: split; [reflexivity|]; split; [eassumption|]; split; [eassumption|].
  all: split; intros Hr; try (cbn in Hr; discriminate Hr).
  all: first [ reflexivity | eexists; repeat split; eassumption ].
Qed.

Lemma record_source_witness :
  exists tr a,
    extractUrlData
      (Samples.mkWorld Samples.notFound (Return tt)
         (str "<html>rendered</html>") Samples.page_plain (str "example.com"))
      (Samples.form "https://example.com/gone") = (tr, Return a)
    /\ rendererInvoked tr = true
    /\ exists u h d,
        FormData_get (str "url") (Samples.form "https://example.com/gone") = Some u
        /\ JSDOM (Samples.mkWorld Samples.notFound (Return tt)
                    (str "<html>rendered</html>") Samples.page_plain
                    (str "example.com")) h = Return d
        /\ h = str "<html>rendered</html>".
Proof.
  destruct (extractUrlData
              (Samples.mkWorld Samples.notFound (Return tt)
                 (str "<html>rendered</html>") Samples.page_plain (str "example.com"))
              (Samples.form "https://example.com/gone")) as [tr [a|e]] eqn:E;
    [|vm_compute in E; discriminate].
  exists tr, a. split; [reflexivity|].
  assert (Hr : rendererInvoked tr = true).
  { vm_compute in E. injection E as <- _. reflexivity. }
  split; [exact Hr|].
  destruct (record_source _ _ E) as (u & h & d & Hget & Hd & _ & Hren & _).
  exists u, h, d. split; [exact Hget|]. split; [exact Hd|].
  specialize (Hren Hr). injection Hren as <-. reflexivity.
Defined.

(** X18: the abort timer is cleared exactly when the fetch resolves, with
    whatever status; when the fetch rejects, [clearTimeout] is never called
    and the 10 s timer stays armed. *)
Theorem timer_cleared_iff_fetch_resolves
  (w : World) (fd : FormData) (u : jsstring) :
  FormData_get (str "url") fd = Some u -> u <> [] ->
  (In ClearTimeout (fst (extractUrlData w fd))
   <-> exists resp, fetch w u = Return resp).
Proof.
  intros Hget Hu. start_call Hget Hu. exec.
  all: split;
    [ intros Hin; try (eexists; reflexivity);
      cbn [In] in Hin;
      repeat match goal with
        | H : _ \/ _ |- _ => destruct H as [H | H]; try discriminate H
        end; contradiction
    | intros [resp Hresp]; try discriminate Hresp;
      right; right; left; reflexivity ].
Qed.

Lemma timer_cleared_iff_fetch_resolves_witness :
  ~ In ClearTimeout
      (fst (extractUrlData
              (Samples.mkWorld Samples.networkError (Return tt)
                 (str "<html></html>") Samples.page_plain (str "example.com"))
              (Samples.form "https://example.com/"))).
Proof.
  intros Hin.
  apply (@timer_cleared_iff_fetch_resolves
           (Samples.mkWorld Samples.networkError (Return tt)
              (str "<html></html>") Samples.page_plain (str "example.com"))
           (Samples.form "https://example.com/") (str "https://example.com/")
           eq_refl ltac:(discriminate)) in Hin.
  destruct Hin as [resp Hresp]. discriminate Hresp.
Defined.

(** X19: [console.error] is called exactly when the extraction fails, once
    and as the last event, with the error the thrown message is made from;
    a call that returns a record never logs an error, and the missing-URL
    error is thrown without being logged. *)
Theorem failure_is_logged_last (w : World) (fd : FormData) :
  match extractUrlData w fd with
  | (tr, Return _) => count is_console_error tr = 0
  | (tr, Throw x) =>
      (x = ErrorObj MSG_NO_URL /\ tr = [])
      \/ (exists e tr0,
             tr = tr0 ++ [ConsoleError e]
             /\ x = extractionFailed e
             /\ count is_console_error tr0 = 0)
  end.
Proof.
  unfold extractUrlData, extractUrlData_M.
  destruct (FormData_get (str "url") fd) as [[|c u]|] eqn:Hget.
  1,3: cbn; left; split; reflexivity.
  exec; try reflexivity.
  all: right.
  all: match goal with
       | |- exists e tr0, ?l = _ /\ extractionFailed ?x = _ /\ _ =>
           exists x, (removelast l); repeat split
       end.
Qed.

(* ===================================================================== *)
(** ** The site name, the date and the two revisions *)
(* ===================================================================== *)

Section Split.

Lemma startsWith_bar (s : jsstring) :
  match s with
  | _ :: b :: _ => b <> 124%N
  | _ => True
  end ->
  startsWith s [32; 124; 32]%N = false.
Proof.
  destruct s as [|x [|b s']]; intros H; cbn [startsWith].
  - reflexivity.
  - apply andb_false_r.
  - destruct (124 =? b)%N eqn:E; [|cbn [andb]; apply andb_false_r].
    apply N.eqb_eq in E. congruence.
Qed.

(** A piece without a bar is not cut. *)
Lemma split_go_plain (a : jsstring) :
  forall cur, ~ In 124%N a ->
              split_go [32; 124; 32]%N a 0 cur = [rev cur ++ a].
Proof.
  induction a as [|c a IH]; intros cur Ha.
  - cbn. rewrite app_nil_r. reflexivity.
  - cbn [split_go]. rewrite startsWith_bar.
    + rewrite IH by (intros X; apply Ha; right; exact X).
      cbn [rev]. rewrite <- app_assoc. reflexivity.
    + destruct a as [|b a']; [exact I|]. intros ->. apply Ha. right; left; reflexivity.
Qed.

Lemma startsWith_nil (s : jsstring) : startsWith s [] = true.
Proof. destruct s; reflexivity. Qed.

(** The first piece ends at the first separator. *)
Lemma split_go_first (a b : jsstring) :
  forall cur, ~ In 124%N a ->
              split_go [32; 124; 32]%N (a ++ [32; 124; 32]%N ++ b) 0 cur
              = (rev cur ++ a) :: split_go [32; 124; 32]%N b 0 [].
Proof.
  induction a as [|c a IH]; intros cur Ha.
  - cbn. rewrite startsWith_nil, app_nil_r. reflexivity.
  - cbn [app split_go]. rewrite startsWith_bar.
    + change (a ++ 32%N :: 124%N :: 32%N :: b) with (a ++ [32; 124; 32]%N ++ b).
      rewrite IH by (intros X; apply Ha; right; exact X).
      cbn [rev]. rewrite <- app_assoc. reflexivity.
    + destruct a as [|x a']; cbn [app]; [discriminate|].
      intros ->. apply Ha. right; left; reflexivity.
Qed.

Lemma split_second (a b tail : jsstring) :
  ~ In 124%N a -> ~ In 124%N b ->
  tail = [] \/ (exists t, tail = str " | " ++ t) ->
  nth_error (split (str " | ") (a ++ str " | " ++ b ++ tail)) 1 = Some b.
Proof.
  intros Ha Hb Htail. change (str " | ") with [32; 124; 32]%N in *.
  unfold split.
  pose proof (@split_go_first a (b ++ tail) [] Ha) as H1.
  pose proof (@split_go_plain b [] Hb) as H2.
  pose proof (fun t => @split_go_first b t [] Hb) as H3.
  unfold jsstring, code_unit in *. rewrite H1. cbn [nth_error].
  destruct Htail as [-> | [t ->]].
  - rewrite app_nil_r, H2. reflexivity.
  - rewrite H3. reflexivity.
Qed.

End Split.

(** X20: with no site-name meta, a page title of the form
    "first | second" or "first | second | ..." gives the second piece as the
    site name (cut like every display field), not the last one; the URL parser
    is not consulted, so the record is built even where it would throw. *)
Theorem siteName_from_title
  (w : World) (d : document) (u a b tail : jsstring) :
  absent d (meta_selectors (str "site_name") ++ meta_selectors (str "og:site_name")) ->
  titleText d = Some (a ++ str " | " ++ b ++ tail) ->
  ~ In 124%N a -> ~ In 124%N b -> b <> [] ->
  tail = [] \/ (exists t, tail = str " | " ++ t) ->
  exists r, articleData w d u = Return r
            /\ siteName r = truncateToVarCharLimit b.
Proof.
  intros Habs Htitle Ha Hb Hne Htail.
  unfold articleData, siteName_raw.
  rewrite (getMetaContent_absent (absent_app_l _ _ Habs)).
  rewrite (getMetaContent_absent (absent_app_r _ _ Habs)).
  cbn [truthy]. rewrite Htitle. cbn [option_map].
  rewrite (@split_second a b tail Ha Hb Htail).
  destruct b as [|x b']; [congruence|].
  eexists. split; reflexivity.
Qed.

Lemma siteName_from_title_witness :
  exists r,
    articleData
      {| fetch := fun _ => Samples.networkError;
         launch := Return tt; newPage := Return tt; setUserAgent := Return tt;
         goto := fun _ => Return tt; page_content := Return [];
         close := Return tt;
         JSDOM := fun _ => Return Samples.page_titled;
         URL_hostname := fun _ => Throw (ErrorObj (str "Invalid URL"));
         Date_toISOString := Samples.NOW |}
      Samples.page_titled (str "not a url") = Return r
    /\ siteName r = truncateToVarCharLimit (str "Site").
Proof.
  apply (@siteName_from_title _ Samples.page_titled (str "not a url")
           (str "Post") (str "Site") (str " | Section")).
  - sources_absent.
  - reflexivity.
  - vm_compute. intuition discriminate.
  - vm_compute. intuition discriminate.
  - discriminate.
  - right. exists (str "Section"). reflexivity.
Defined.

(** X21: only the first [time] element counts for the date: with no
    modified-time or published-time meta, when that element has no [datetime]
    attribute or an empty one, publishedAt is the current time. *)
Theorem publishedAt_without_datetime
  (w : World) (d : document) (u : jsstring) (t : node) (a : ArticleData) :
  absent d (meta_selectors (str "article:modified_time")
            ++ meta_selectors (str "article:published_time")) ->
  querySelector d [TypeSel (str "time")] = Some t ->
  (getAttribute (str "datetime") t = None
   \/ getAttribute (str "datetime") t = Some []) ->
  articleData w d u = Return a ->
  publishedAt a = Date_toISOString w.
Proof.
  intros Habs Ht Hattr Ha. unfold articleData in Ha.
  destruct (siteName_raw w d u); [|discriminate].
  injection Ha as <-. cbn [publishedAt].
  unfold publishedAt_raw, time_datetime.
  rewrite (getMetaContent_absent (absent_app_l _ _ Habs)).
  rewrite (getMetaContent_absent (absent_app_r _ _ Habs)).
  rewrite Ht. destruct Hattr as [-> | ->]; cbn;
    destruct (Date_toISOString w); reflexivity.
Qed.

Lemma publishedAt_without_datetime_witness :
  match articleData
          (Samples.mkWorld (Samples.ok200 []) (Return tt) [] Samples.page_titled
             (str "example.com"))
          Samples.page_titled (str "https://example.com/") with
  | Return a => publishedAt a = Samples.NOW
  | Throw _ => False
  end.
Proof.
  destruct (articleData
              (Samples.mkWorld (Samples.ok200 []) (Return tt) [] Samples.page_titled
                 (str "example.com"))
              Samples.page_titled (str "https://example.com/")) as [a|e] eqn:Ha;
    [|vm_compute in Ha; discriminate].
  apply (@publishedAt_without_datetime
           (Samples.mkWorld (Samples.ok200 []) (Return tt) [] Samples.page_titled
              (str "example.com"))
           Samples.page_titled (str "https://example.com/")
           (Samples.el 5 "time" [Text (str "yesterday")]) a).
  - sources_absent.
  - reflexivity.
  - left. reflexivity.
  - exact Ha.
Defined.

Section Revisions.

Lemma articleData_revisions (w : World) (d : document) (u : jsstring) :
  articleData w d u
  = match Earlier.articleData w d u with
    | Return e => Return (Earlier.normalizeRecord e)
    | Throw x => Throw x
    end.
Proof.
  unfold articleData, Earlier.articleData.
  destruct (siteName_raw w d u); reflexivity.
Qed.

End Revisions.

(** X22: the two revisions of the action differ in the record only: in
    every environment they cause the same events; one throws exactly when the
    other does, with the same error; and the record of the later revision is
    the record of the earlier one with site name, title and description
    normalised and cut at 255 and thumbnail and excerpt normalised. *)
Theorem revisions_agree (w : World) (fd : FormData) :
  extractUrlData w fd
  = (fst (Earlier.extractUrlData w fd),
     match snd (Earlier.extractUrlData w fd) with
     | Return e => Return (Earlier.normalizeRecord e)
     | Throw x => Throw x
     end).
Proof.
  unfold extractUrlData, extractUrlData_M,
    Earlier.extractUrlData, Earlier.extractUrlData_M, Earlier.extractBody.
  destruct (FormData_get (str "url") fd) as [[|c u]|] eqn:Hget;
    try reflexivity.
  exec.
  all: repeat match goal with
         | H : articleData _ _ _ = _ |- _ =>
             rewrite articleData_revisions in H
         end.
  all: repeat match goal with
         | H : match Earlier.articleData ?w ?d ?u with _ => _ end = _ |- _ =>
             destruct (Earlier.articleData w d u); try discriminate H;
             injection H as <-
         end.
  all: reflexivity.
Qed.

(* ===================================================================== *)
(** ** Instances of the equivalences *)
(* ===================================================================== *)

Lemma normalizeText_fixed_points_witness :
  normalizeText (str "a b") = str "a b".
Proof.
  apply (proj1 (normalizeText_fixed_points (str "a b"))). reflexivity.
Defined.

Lemma empty_result_iff_blank_witness :
  truncateToVarCharLimit [32; 10; 9; 12288]%N = [].
Proof.
  apply (proj2 (empty_result_iff_blank [32; 10; 9; 12288]%N)). reflexivity.
Defined.

Lemma fetchWithPuppeteer_returns_witness :
  snd (fetchWithPuppeteer
         (Samples.mkWorld Samples.networkError (Return tt)
            (str "<html>rendered</html>") Samples.page_plain (str "example.com"))
         (str "https://example.com/") ([], None))
  = Return (str "<html>rendered</html>").
Proof.
  apply (proj2 (fetchWithPuppeteer_returns
                  (Samples.mkWorld Samples.networkError (Return tt)
                     (str "<html>rendered</html>") Samples.page_plain
                     (str "example.com"))
                  (str "https://example.com/") [] (str "<html>rendered</html>"))).
  repeat split.
Defined.
